(** * Tenant isolation and business rules of the multi-tenant SaaS scaffold

    A shallow embedding of
    - [src/lib/validation/tenant-constraints.ts]  (zod schemas),
    - [src/lib/errors/tenant-errors.ts]           (error classes),
    - [src/lib/prisma/client.ts]                  (tenant-aware gateway),
    - [src/lib/middleware/tenant.ts]              (resolver, permissions),
    - [src/lib/services/tenant-user-service.ts]   (memberships, invitations),
    - [src/lib/services/tenant-service.ts]        (tenants).

    The database is a record of three tables, each a list of rows in
    insertion order.  Asynchronous service methods become computations in a
    state-and-exception monad over a [World]: the tables, the database's
    id generator, the clock, the session setting [app.current_tenant_id],
    the client's [tenantId] field and a ghost trace of table accesses.

    The typed accessors generated from the schema are modelled by what the
    services rely on: rows are addressed by primary key, [create] draws a
    fresh key from the database and is refused on a duplicate key,
    [update] and [delete] are refused on a missing key, and deleting a
    tenant cascades.  The generated columns ([id], [created_at],
    [updated_at]) are filled by the database.  Unique indexes, check
    constraints and foreign keys declared by the migration are the
    schema's business and are not part of this model.  The session setting
    is kept per session: once set it stays until it is set again. *)

From Stdlib Require Import String Ascii List Bool Arith ZArith Lia.
From Stdlib Require Import Sorted Permutation.
Import ListNotations.
Local Open Scope string_scope.

Set Implicit Arguments.

(* ------------------------------------------------------------------ *)
(** ** Enumerations ([tenant-constraints.ts], lines 9-16) *)

Inductive TenantRole := Owner | Admin | Member | Viewer.
Inductive TenantStatus := Active | Suspended | Cancelled.
Inductive InvitationStatus := Pending | Accepted | Expired | Revoked.

Definition TenantRole_eqb (a b : TenantRole) : bool :=
  match a, b with
  | Owner, Owner | Admin, Admin | Member, Member | Viewer, Viewer => true
  | _, _ => false
  end.

Definition TenantStatus_eqb (a b : TenantStatus) : bool :=
  match a, b with
  | Active, Active | Suspended, Suspended | Cancelled, Cancelled => true
  | _, _ => false
  end.

Definition InvitationStatus_eqb (a b : InvitationStatus) : bool :=
  match a, b with
  | Pending, Pending | Accepted, Accepted
  | Expired, Expired | Revoked, Revoked => true
  | _, _ => false
  end.

(** The string a role is stored and compared as. *)
Definition role_name (r : TenantRole) : string :=
  match r with
  | Owner => "owner" | Admin => "admin" | Member => "member" | Viewer => "viewer"
  end.

(** [z.enum([...]).parse]: the accepted strings, [None] for a ZodError. *)
Definition TenantRoleEnum (s : string) : option TenantRole :=
  if s =? "owner" then Some Owner
  else if s =? "admin" then Some Admin
  else if s =? "member" then Some Member
  else if s =? "viewer" then Some Viewer
  else None.

Definition TenantStatusEnum (s : string) : option TenantStatus :=
  if s =? "active" then Some Active
  else if s =? "suspended" then Some Suspended
  else if s =? "cancelled" then Some Cancelled
  else None.

Definition InvitationStatusEnum (s : string) : option InvitationStatus :=
  if s =? "pending" then Some Pending
  else if s =? "accepted" then Some Accepted
  else if s =? "expired" then Some Expired
  else if s =? "revoked" then Some Revoked
  else None.

(* ------------------------------------------------------------------ *)
(** ** Rows *)

(** An opaque JSON document ([settings], [metadata]). *)
Definition Json := list (string * string).

(** A [Date], as milliseconds since the epoch. *)
Definition Date := Z.

Module Tenant.
Record t := mk {
  id : string;
  slug : string;
  name : string;
  settings : Json;
  status : TenantStatus;
  created_at : Date;
  updated_at : Date
}.
End Tenant.

Module TenantUser.
Record t := mk {
  id : string;
  tenant_id : string;
  clerk_user_id : string;
  email : string;
  first_name : option string;
  last_name : option string;
  role : TenantRole;
  status : TenantStatus;
  metadata : Json;
  created_at : Date;
  updated_at : Date
}.

Definition with_role (r : TenantRole) (u : t) : t :=
  mk (id u) (tenant_id u) (clerk_user_id u) (email u) (first_name u)
     (last_name u) r (status u) (metadata u) (created_at u) (updated_at u).

Definition with_status (s : TenantStatus) (u : t) : t :=
  mk (id u) (tenant_id u) (clerk_user_id u) (email u) (first_name u)
     (last_name u) (role u) s (metadata u) (created_at u) (updated_at u).

Definition touch (now : Date) (u : t) : t :=
  mk (id u) (tenant_id u) (clerk_user_id u) (email u) (first_name u)
     (last_name u) (role u) (status u) (metadata u) (created_at u) now.
End TenantUser.

Module TenantInvitation.
Record t := mk {
  id : string;
  tenant_id : string;
  email : string;
  role : TenantRole;
  invited_by : option string;
  token : string;
  status : InvitationStatus;
  expires_at : Date;
  accepted_at : option Date;
  created_at : Date;
  updated_at : Date
}.

Definition with_status (s : InvitationStatus) (i : t) : t :=
  mk (id i) (tenant_id i) (email i) (role i) (invited_by i) (token i) s
     (expires_at i) (accepted_at i) (created_at i) (updated_at i).

Definition with_accepted_at (d : Date) (i : t) : t :=
  mk (id i) (tenant_id i) (email i) (role i) (invited_by i) (token i)
     (status i) (expires_at i) (Some d) (created_at i) (updated_at i).

Definition touch (now : Date) (i : t) : t :=
  mk (id i) (tenant_id i) (email i) (role i) (invited_by i) (token i)
     (status i) (expires_at i) (accepted_at i) (created_at i) now.
End TenantInvitation.

Definition Tenant_with_status (s : TenantStatus) (x : Tenant.t) : Tenant.t :=
  Tenant.mk (Tenant.id x) (Tenant.slug x) (Tenant.name x) (Tenant.settings x)
            s (Tenant.created_at x) (Tenant.updated_at x).

Definition Tenant_touch (now : Date) (x : Tenant.t) : Tenant.t :=
  Tenant.mk (Tenant.id x) (Tenant.slug x) (Tenant.name x) (Tenant.settings x)
            (Tenant.status x) (Tenant.created_at x) now.

(* ------------------------------------------------------------------ *)
(** ** The database and the world around it *)

Record Database := mkDatabase {
  tenants : list Tenant.t;
  tenant_users : list TenantUser.t;
  tenant_invitations : list TenantInvitation.t
}.

Inductive Table := T_tenants | T_tenant_users | T_tenant_invitations.

(** The tables guarded by a row-level-security policy: every table but
    [tenants] ([client.ts], line 177). *)
Definition tenant_scoped (tb : Table) : bool :=
  match tb with T_tenants => false | _ => true end.

(** Ghost events, newest first in a trace.  An access records whether it
    writes, whether a transaction was open and the value the session
    setting had when it ran. *)
Inductive Event :=
| EvBegin
| EvCommit
| EvRollback
| EvSetConfig (value : string)
| EvAccess (tb : Table) (write : bool) (intx : bool) (scope : string).

Record World := mkWorld {
  db : Database;
  (** [gen_random_uuid()]: the n-th identifier the database hands out. *)
  uuid_source : nat -> string;
  uuid_drawn : nat;
  (** [randomBytes(32).toString("hex")]: the n-th token drawn. *)
  token_source : nat -> string;
  tokens_drawn : nat;
  (** [new Date()]. *)
  clock : Date;
  (** The session-local setting [app.current_tenant_id]; empty when unset. *)
  current_tenant_id : string;
  (** The gateway's private field [tenantId]. *)
  client_tenantId : option string;
  (** [auth().userId] of the request being served. *)
  auth_userId : option string;
  in_tx : bool;
  trace : list Event
}.

Definition set_db (d : Database) (w : World) : World :=
  mkWorld d (uuid_source w) (uuid_drawn w) (token_source w) (tokens_drawn w)
          (clock w) (current_tenant_id w) (client_tenantId w) (auth_userId w)
          (in_tx w) (trace w).

Definition set_uuid_drawn (n : nat) (w : World) : World :=
  mkWorld (db w) (uuid_source w) n (token_source w) (tokens_drawn w)
          (clock w) (current_tenant_id w) (client_tenantId w) (auth_userId w)
          (in_tx w) (trace w).

Definition set_tokens_drawn (n : nat) (w : World) : World :=
  mkWorld (db w) (uuid_source w) (uuid_drawn w) (token_source w) n
          (clock w) (current_tenant_id w) (client_tenantId w) (auth_userId w)
          (in_tx w) (trace w).

Definition set_current_tenant_id (v : string) (w : World) : World :=
  mkWorld (db w) (uuid_source w) (uuid_drawn w) (token_source w) (tokens_drawn w)
          (clock w) v (client_tenantId w) (auth_userId w)
          (in_tx w) (trace w).

Definition set_client_tenantId (v : option string) (w : World) : World :=
  mkWorld (db w) (uuid_source w) (uuid_drawn w) (token_source w) (tokens_drawn w)
          (clock w) (current_tenant_id w) v (auth_userId w)
          (in_tx w) (trace w).

Definition set_in_tx (b : bool) (w : World) : World :=
  mkWorld (db w) (uuid_source w) (uuid_drawn w) (token_source w) (tokens_drawn w)
          (clock w) (current_tenant_id w) (client_tenantId w) (auth_userId w)
          b (trace w).

Definition set_trace (t : list Event) (w : World) : World :=
  mkWorld (db w) (uuid_source w) (uuid_drawn w) (token_source w) (tokens_drawn w)
          (clock w) (current_tenant_id w) (client_tenantId w) (auth_userId w)
          (in_tx w) t.

Definition log (e : Event) (w : World) : World := set_trace (e :: trace w) w.

(* ------------------------------------------------------------------ *)
(** ** Errors ([tenant-errors.ts]) *)

Inductive Exn :=
| TenantBusinessRuleError (message : string)
| TenantValidationError (message : string)
| TenantNotFoundError (message : string)
| TenantUserNotFoundError (message : string)
| TenantPermissionError (message : string)
| TenantContextError (message : string)
| ZodError
| PrismaError (message : string)
| Error (message : string).

Definition isTenantError (e : Exn) : bool :=
  match e with
  | TenantBusinessRuleError _ | TenantValidationError _
  | TenantNotFoundError _ | TenantUserNotFoundError _
  | TenantPermissionError _ | TenantContextError _ => true
  | _ => false
  end.

Definition getTenantErrorStatusCode (e : Exn) : nat :=
  match e with
  | TenantValidationError _ => 400
  | TenantNotFoundError _ | TenantUserNotFoundError _ => 404
  | TenantPermissionError _ => 403
  | TenantBusinessRuleError _ => 409
  | TenantContextError _ => 500
  | _ => 500
  end.

(* ------------------------------------------------------------------ *)
(** ** The monad of service computations *)

Inductive Outcome (A : Type) :=
| Ok (a : A)
| Throw (e : Exn).
Arguments Ok {A} a.
Arguments Throw {A} e.

Definition M (A : Type) := World -> Outcome A * World.

Definition ret {A} (a : A) : M A := fun w => (Ok a, w).

Definition throw {A} (e : Exn) : M A := fun w => (Throw e, w).

Definition bind {A B} (m : M A) (k : A -> M B) : M B :=
  fun w =>
    match m w with
    | (Ok a, w1) => k a w1
    | (Throw e, w1) => (Throw e, w1)
    end.

Declare Scope svc_scope.
Delimit Scope svc_scope with svc.
Notation "x <- m ;; k" := (bind m (fun x => k))
  (at level 61, m at next level, right associativity) : svc_scope.
Notation "m ;; k" := (bind m (fun _ => k))
  (at level 61, right associativity) : svc_scope.
Local Open Scope svc_scope.

(** A pure, possibly failing step. *)
Definition liftO {A} (o : Outcome A) : M A := fun w => (o, w).

(** [try { body } finally { fin }]. *)
Definition try_finally {A} (body : M A) (fin : M unit) : M A :=
  fun w =>
    match body w with
    | (r, w1) =>
        match fin w1 with
        | (Ok _, w2) => (r, w2)
        | (Throw e, w2) => (Throw e, w2)
        end
    end.

Definition get_db : M Database := fun w => (Ok (db w), w).
Definition put_db (d : Database) : M unit := fun w => (Ok tt, set_db d w).
Definition Date_now : M Date := fun w => (Ok (clock w), w).

Definition gen_random_uuid : M string :=
  fun w => (Ok (uuid_source w (uuid_drawn w)), set_uuid_drawn (S (uuid_drawn w)) w).

Definition randomBytes_hex : M string :=
  fun w => (Ok (token_source w (tokens_drawn w)),
            set_tokens_drawn (S (tokens_drawn w)) w).

Definition access (tb : Table) (write : bool) : M unit :=
  fun w => (Ok tt, log (EvAccess tb write (in_tx w) (current_tenant_id w)) w).

(** [prisma.$transaction(async (tx) => ...)]: the callback runs with a
    transaction open; when it throws, every table is restored to what it
    was when the transaction began and the error is rethrown. *)
Definition transaction {A} (cb : M A) : M A :=
  fun w =>
    match cb (set_in_tx true (log EvBegin w)) with
    | (Ok a, w1) => (Ok a, set_in_tx (in_tx w) (log EvCommit w1))
    | (Throw e, w1) =>
        (Throw e, set_in_tx (in_tx w) (log EvRollback (set_db (db w) w1)))
    end.

(* ------------------------------------------------------------------ *)
(** ** The generated typed accessors, as far as the services use them

    A [where] clause is a boolean predicate on rows.  [findUnique],
    [update] and [delete] address a row by its primary key.  [create]
    draws the primary key from the database and fails on a duplicate key. *)

Definition replace_tenants (l : list Tenant.t) (d : Database) : Database :=
  mkDatabase l (tenant_users d) (tenant_invitations d).
Definition replace_tenant_users (l : list TenantUser.t) (d : Database) : Database :=
  mkDatabase (tenants d) l (tenant_invitations d).
Definition replace_tenant_invitations (l : list TenantInvitation.t) (d : Database)
  : Database :=
  mkDatabase (tenants d) (tenant_users d) l.

Definition P2002 : Exn := PrismaError "Unique constraint failed on the fields: (`id`)".
Definition P2025 : Exn := PrismaError "Record to update or delete does not exist".
Definition P2011 : Exn := PrismaError "Null constraint violation on the fields: (`tenant_id`)".

(** *** tenants *)

Module TenantCreate.
Record t := mk {
  slug : string;
  name : string;
  settings : Json;
  status : TenantStatus
}.
End TenantCreate.

Definition tenants_findUnique_slug (slug : string) : M (option Tenant.t) :=
  access T_tenants false ;;
  d <- get_db ;;
  ret (find (fun x => Tenant.slug x =? slug) (tenants d)).

Definition tenants_findUnique_id (id : string) : M (option Tenant.t) :=
  access T_tenants false ;;
  d <- get_db ;;
  ret (find (fun x => Tenant.id x =? id) (tenants d)).

Definition tenants_create (data : TenantCreate.t) : M Tenant.t :=
  access T_tenants true ;;
  id <- gen_random_uuid ;;
  now <- Date_now ;;
  d <- get_db ;;
  if existsb (fun x => Tenant.id x =? id) (tenants d) then throw P2002
  else
    let row := Tenant.mk id (TenantCreate.slug data) (TenantCreate.name data)
                 (TenantCreate.settings data) (TenantCreate.status data) now now in
    put_db (replace_tenants (tenants d ++ [row]) d) ;;
    ret row.

Definition tenants_update (id : string) (f : Tenant.t -> Tenant.t) : M Tenant.t :=
  access T_tenants true ;;
  now <- Date_now ;;
  d <- get_db ;;
  match find (fun x => Tenant.id x =? id) (tenants d) with
  | None => throw P2025
  | Some x =>
      put_db (replace_tenants
                (map (fun r => if Tenant.id r =? id then Tenant_touch now (f r) else r)
                     (tenants d)) d) ;;
      ret (Tenant_touch now (f x))
  end.

(** Deleting a tenant cascades to the rows that reference it
    ([tenant-service.ts], line 184). *)
Definition tenants_delete (id : string) : M Tenant.t :=
  access T_tenants true ;;
  d <- get_db ;;
  match find (fun x => Tenant.id x =? id) (tenants d) with
  | None => throw P2025
  | Some x =>
      put_db (mkDatabase
                (filter (fun r => negb (Tenant.id r =? id)) (tenants d))
                (filter (fun u => negb (TenantUser.tenant_id u =? id)) (tenant_users d))
                (filter (fun i => negb (TenantInvitation.tenant_id i =? id))
                        (tenant_invitations d))) ;;
      ret x
  end.

(** *** tenant_users *)

Module UserCreate.
Record t := mk {
  tenant_id : option string;
  clerk_user_id : string;
  email : string;
  first_name : option string;
  last_name : option string;
  role : TenantRole;
  status : TenantStatus;
  metadata : option Json
}.

(** [{ ...data, tenant_id: v }] *)
Definition with_tenant_id (v : option string) (x : t) : t :=
  mk v (clerk_user_id x) (email x) (first_name x) (last_name x) (role x)
     (status x) (metadata x).
End UserCreate.

Definition tenant_users_findFirst (where_ : TenantUser.t -> bool)
  : M (option TenantUser.t) :=
  access T_tenant_users false ;;
  d <- get_db ;;
  ret (find where_ (tenant_users d)).

Definition tenant_users_findMany (where_ : TenantUser.t -> bool)
  : M (list TenantUser.t) :=
  access T_tenant_users false ;;
  d <- get_db ;;
  ret (filter where_ (tenant_users d)).

Definition tenant_users_findUnique (id : string) : M (option TenantUser.t) :=
  access T_tenant_users false ;;
  d <- get_db ;;
  ret (find (fun u => TenantUser.id u =? id) (tenant_users d)).

Definition tenant_users_count (where_ : TenantUser.t -> bool) : M nat :=
  access T_tenant_users false ;;
  d <- get_db ;;
  ret (length (filter where_ (tenant_users d))).

Definition tenant_users_create (data : UserCreate.t) : M TenantUser.t :=
  access T_tenant_users true ;;
  match UserCreate.tenant_id data with
  | None => throw P2011
  | Some tid =>
      id <- gen_random_uuid ;;
      now <- Date_now ;;
      d <- get_db ;;
      if existsb (fun u => TenantUser.id u =? id) (tenant_users d) then throw P2002
      else
        let row := TenantUser.mk id tid (UserCreate.clerk_user_id data)
                     (UserCreate.email data) (UserCreate.first_name data)
                     (UserCreate.last_name data) (UserCreate.role data)
                     (UserCreate.status data)
                     (match UserCreate.metadata data with Some m => m | None => [] end)
                     now now in
        put_db (replace_tenant_users (tenant_users d ++ [row]) d) ;;
        ret row
  end.

Definition tenant_users_update (id : string) (f : TenantUser.t -> TenantUser.t)
  : M TenantUser.t :=
  access T_tenant_users true ;;
  now <- Date_now ;;
  d <- get_db ;;
  match find (fun u => TenantUser.id u =? id) (tenant_users d) with
  | None => throw P2025
  | Some u =>
      put_db (replace_tenant_users
                (map (fun r => if TenantUser.id r =? id
                               then TenantUser.touch now (f r) else r)
                     (tenant_users d)) d) ;;
      ret (TenantUser.touch now (f u))
  end.

Definition tenant_users_delete (id : string) : M TenantUser.t :=
  access T_tenant_users true ;;
  d <- get_db ;;
  match find (fun u => TenantUser.id u =? id) (tenant_users d) with
  | None => throw P2025
  | Some u =>
      put_db (replace_tenant_users
                (filter (fun r => negb (TenantUser.id r =? id)) (tenant_users d)) d) ;;
      ret u
  end.

(** *** tenant_invitations *)

Module InvitationCreate.
Record t := mk {
  tenant_id : string;
  email : string;
  role : TenantRole;
  invited_by : option string;
  token : string;
  status : InvitationStatus;
  expires_at : Date
}.
End InvitationCreate.

Definition tenant_invitations_findFirst (where_ : TenantInvitation.t -> bool)
  : M (option TenantInvitation.t) :=
  access T_tenant_invitations false ;;
  d <- get_db ;;
  ret (find where_ (tenant_invitations d)).

Definition tenant_invitations_findUnique (id : string)
  : M (option TenantInvitation.t) :=
  access T_tenant_invitations false ;;
  d <- get_db ;;
  ret (find (fun i => TenantInvitation.id i =? id) (tenant_invitations d)).

Definition tenant_invitations_create (data : InvitationCreate.t)
  : M TenantInvitation.t :=
  access T_tenant_invitations true ;;
  id <- gen_random_uuid ;;
  now <- Date_now ;;
  d <- get_db ;;
  if existsb (fun i => TenantInvitation.id i =? id) (tenant_invitations d)
  then throw P2002
  else
    let row := TenantInvitation.mk id (InvitationCreate.tenant_id data)
                 (InvitationCreate.email data) (InvitationCreate.role data)
                 (InvitationCreate.invited_by data) (InvitationCreate.token data)
                 (InvitationCreate.status data) (InvitationCreate.expires_at data)
                 None now now in
    put_db (replace_tenant_invitations (tenant_invitations d ++ [row]) d) ;;
    ret row.

Definition tenant_invitations_update (id : string)
  (f : TenantInvitation.t -> TenantInvitation.t) : M TenantInvitation.t :=
  access T_tenant_invitations true ;;
  now <- Date_now ;;
  d <- get_db ;;
  match find (fun i => TenantInvitation.id i =? id) (tenant_invitations d) with
  | None => throw P2025
  | Some i =>
      put_db (replace_tenant_invitations
                (map (fun r => if TenantInvitation.id r =? id
                               then TenantInvitation.touch now (f r) else r)
                     (tenant_invitations d)) d) ;;
      ret (TenantInvitation.touch now (f i))
  end.

(** *** Further accessors: ordering, counting and bulk update *)

(** [orderBy: { created_at: "desc" }]: newest first; rows created at the
    same instant keep their table order. *)
Fixpoint insert_desc {A} (key : A -> Date) (x : A) (l : list A) : list A :=
  match l with
  | [] => [x]
  | y :: tl =>
      if (key y <=? key x)%Z then x :: y :: tl
      else y :: insert_desc key x tl
  end.

Definition orderBy_desc {A} (key : A -> Date) (l : list A) : list A :=
  fold_right (insert_desc key) [] l.

Definition tenant_users_findMany_desc (where_ : TenantUser.t -> bool)
  : M (list TenantUser.t) :=
  access T_tenant_users false ;;
  d <- get_db ;;
  ret (orderBy_desc TenantUser.created_at (filter where_ (tenant_users d))).

Definition tenant_invitations_findMany_desc (where_ : TenantInvitation.t -> bool)
  : M (list TenantInvitation.t) :=
  access T_tenant_invitations false ;;
  d <- get_db ;;
  ret (orderBy_desc TenantInvitation.created_at
         (filter where_ (tenant_invitations d))).

Definition tenant_invitations_findMany (where_ : TenantInvitation.t -> bool)
  : M (list TenantInvitation.t) :=
  access T_tenant_invitations false ;;
  d <- get_db ;;
  ret (filter where_ (tenant_invitations d)).

Definition tenant_invitations_count (where_ : TenantInvitation.t -> bool) : M nat :=
  access T_tenant_invitations false ;;
  d <- get_db ;;
  ret (length (filter where_ (tenant_invitations d))).

(** [updateMany({ where, data })]: every matching row is updated; the
    result is the number of rows matched. *)
Definition tenant_invitations_updateMany (where_ : TenantInvitation.t -> bool)
  (f : TenantInvitation.t -> TenantInvitation.t) : M nat :=
  access T_tenant_invitations true ;;
  now <- Date_now ;;
  d <- get_db ;;
  put_db (replace_tenant_invitations
            (map (fun r => if where_ r then TenantInvitation.touch now (f r) else r)
                 (tenant_invitations d)) d) ;;
  ret (length (filter where_ (tenant_invitations d))).

Definition tenant_invitations_delete (id : string) : M TenantInvitation.t :=
  access T_tenant_invitations true ;;
  d <- get_db ;;
  match find (fun i => TenantInvitation.id i =? id) (tenant_invitations d) with
  | None => throw P2025
  | Some i =>
      put_db (replace_tenant_invitations
                (filter (fun r => negb (TenantInvitation.id r =? id))
                        (tenant_invitations d)) d) ;;
      ret i
  end.

(* ------------------------------------------------------------------ *)
(** ** The tenant-aware gateway ([client.ts], class TenantAwarePrismaClient) *)

Module Gateway.

Definition setTenantContext (tenantId : string) : M unit :=
  fun w => (Ok tt, set_client_tenantId (Some tenantId) w).

Definition getTenantContext : M (option string) :=
  fun w => (Ok (client_tenantId w), w).

(** [$executeRaw`SELECT set_config('app.current_tenant_id', value, true)`] *)
Definition executeRaw_set_config (value : string) : M unit :=
  fun w => (Ok tt, log (EvSetConfig value) (set_current_tenant_id value w)).

Definition withTenantContext {A} (tenantId : string) (callback : M A) : M A :=
  executeRaw_set_config tenantId ;;
  try_finally callback (executeRaw_set_config "").

(** [!this.tenantId] holds for [null] and for the empty string. *)
Definition executeWithTenantContext {A} (callback : M A) : M A :=
  tenantId <- getTenantContext ;;
  match tenantId with
  | None => throw (Error "Tenant context not set. Call setTenantContext() first.")
  | Some t =>
      if t =? "" then
        throw (Error "Tenant context not set. Call setTenantContext() first.")
      else withTenantContext t callback
  end.

(** The overrides of the [tenantUsers] getter (lines 61-93). *)
Definition tenantUsers_findMany (where_ : TenantUser.t -> bool) :=
  executeWithTenantContext (tenant_users_findMany where_).

Definition tenantUsers_findFirst (where_ : TenantUser.t -> bool) :=
  executeWithTenantContext (tenant_users_findFirst where_).

Definition tenantUsers_findUnique (id : string) :=
  executeWithTenantContext (tenant_users_findUnique id).

Definition tenantUsers_create (data : UserCreate.t) : M TenantUser.t :=
  executeWithTenantContext (
    tenantId <- getTenantContext ;;
    tenant_users_create (UserCreate.with_tenant_id tenantId data)).

Definition tenantUsers_update (id : string) (f : TenantUser.t -> TenantUser.t) :=
  executeWithTenantContext (tenant_users_update id f).

Definition tenantUsers_delete (id : string) :=
  executeWithTenantContext (tenant_users_delete id).

Definition tenantUsers_count (where_ : TenantUser.t -> bool) :=
  executeWithTenantContext (tenant_users_count where_).

(** The overrides of the [tenantInvitations] getter (lines 95-120). *)
Definition tenantInvitations_findMany (where_ : TenantInvitation.t -> bool) :=
  executeWithTenantContext (tenant_invitations_findMany where_).

Definition tenantInvitations_findFirst (where_ : TenantInvitation.t -> bool) :=
  executeWithTenantContext (tenant_invitations_findFirst where_).

Definition tenantInvitations_findUnique (id : string) :=
  executeWithTenantContext (tenant_invitations_findUnique id).

(** [{ ...args.data, tenant_id: this.tenantId }]: the payload's own
    [tenant_id] is overwritten before the row is created. *)
Definition tenantInvitations_create (data : InvitationCreate.t)
  : M TenantInvitation.t :=
  executeWithTenantContext (
    tenantId <- getTenantContext ;;
    match tenantId with
    | None => throw P2011
    | Some t =>
        tenant_invitations_create
          (InvitationCreate.mk t (InvitationCreate.email data)
             (InvitationCreate.role data) (InvitationCreate.invited_by data)
             (InvitationCreate.token data) (InvitationCreate.status data)
             (InvitationCreate.expires_at data))
    end).

Definition tenantInvitations_update (id : string)
  (f : TenantInvitation.t -> TenantInvitation.t) :=
  executeWithTenantContext (tenant_invitations_update id f).

Definition tenantInvitations_delete (id : string) :=
  executeWithTenantContext (tenant_invitations_delete id).

Definition tenantInvitations_count (where_ : TenantInvitation.t -> bool) :=
  executeWithTenantContext (tenant_invitations_count where_).

(** [createTenantAwarePrisma(tenantId?)]: a new client, bound when the
    argument is a non-empty string. *)
Definition createTenantAwarePrisma (tenantId : option string) : M unit :=
  fun w =>
    match tenantId with
    | Some t =>
        if t =? "" then (Ok tt, set_client_tenantId None w)
        else (Ok tt, set_client_tenantId (Some t) w)
    | None => (Ok tt, set_client_tenantId None w)
    end.

End Gateway.

(* ------------------------------------------------------------------ *)
(** ** Request middleware ([middleware/tenant.ts]) *)

Module Middleware.

Inductive ExtractFrom := header | subdomain | query | path.

Record TenantMiddlewareOptions := mkOptions {
  required : option bool;
  extractFrom : option ExtractFrom;
  headerName : option string;
  fallbackTenantSlug : option string
}.

Definition DEFAULT_OPTIONS : TenantMiddlewareOptions :=
  mkOptions (Some true) (Some header) (Some "x-tenant-slug") (Some "default").

Definition spread {A} (base over : option A) : option A :=
  match over with Some x => Some x | None => base end.

(** [{ ...DEFAULT_OPTIONS, ...options }] *)
Definition merge_options (options : TenantMiddlewareOptions)
  : TenantMiddlewareOptions :=
  mkOptions (spread (required DEFAULT_OPTIONS) (required options))
            (spread (extractFrom DEFAULT_OPTIONS) (extractFrom options))
            (spread (headerName DEFAULT_OPTIONS) (headerName options))
            (spread (fallbackTenantSlug DEFAULT_OPTIONS) (fallbackTenantSlug options)).

(** The parts of a [NextRequest] the resolver reads. *)
Record NextRequest := mkRequest {
  headers : list (string * string);
  searchParams : list (string * string);
  pathname : string
}.

Fixpoint get (key : string) (l : list (string * string)) : option string :=
  match l with
  | [] => None
  | (k, v) :: rest => if k =? key then Some v else get key rest
  end.

(** [String.prototype.split] on a one-character separator. *)
Fixpoint split (sep : ascii) (s : string) : list string :=
  match s with
  | EmptyString => [EmptyString]
  | String c rest =>
      if Ascii.eqb c sep then EmptyString :: split sep rest
      else
        match split sep rest with
        | [] => [String c EmptyString]
        | hd :: tl => String c hd :: tl
        end
  end.

(** [x || null] on an optional string: the empty string is falsy. *)
Definition or_null (x : option string) : option string :=
  match x with
  | Some s => if s =? "" then None else Some s
  | None => None
  end.

Definition truthy (x : option string) : bool :=
  match or_null x with Some _ => true | None => false end.

Definition extractTenantSlug (request : NextRequest)
  (options : TenantMiddlewareOptions) : option string :=
  let opts := merge_options options in
  match extractFrom opts with
  | Some header =>
      match headerName opts with
      | Some h => or_null (get h (headers request))
      | None => None
      end
  | Some subdomain =>
      match or_null (get "host" (headers request)) with
      | Some host =>
          let sub := hd EmptyString (split "." host) in
          if negb (sub =? "www") && negb (sub =? "localhost") then Some sub
          else None
      | None => None
      end
  | Some query => or_null (get "tenant" (searchParams request))
  | Some path => or_null (nth_error (split "/" (pathname request)) 1)
  | None => None
  end.

Record TenantContext := mkContext {
  tenant : Tenant.t;
  user : TenantUser.t;
  permissions : list string
}.

(** The role-to-permission table (lines 167-188), keyed by role string. *)
Definition permissions_table : list (string * list string) :=
  [ ("admin",
     [ "tenant:read"; "tenant:update"; "tenant:delete";
       "user:read"; "user:create"; "user:update"; "user:delete";
       "invitation:create"; "invitation:delete";
       "settings:read"; "settings:update"; "audit:read" ]);
    ("user", [ "tenant:read"; "user:read"; "settings:read" ]);
    ("viewer", [ "tenant:read"; "user:read" ]) ].

Fixpoint lookup {A} (key : string) (l : list (string * A)) : option A :=
  match l with
  | [] => None
  | (k, v) :: rest => if k =? key then Some v else lookup key rest
  end.

(** [permissions[role] || []] *)
Definition getRolePermissions (role : string) : list string :=
  match lookup role permissions_table with
  | Some ps => ps
  | None => []
  end.

Definition auth : M (option string) := fun w => (Ok (auth_userId w), w).

Definition getTenantContext (request : NextRequest)
  (options : TenantMiddlewareOptions) : M (option TenantContext) :=
  let opts := merge_options options in
  let extracted := extractTenantSlug request opts in
  let is_required :=
    match required opts with Some b => b | None => false end in
  let tenantSlug :=
    if negb (truthy extracted) && negb is_required
       && truthy (fallbackTenantSlug opts)
    then fallbackTenantSlug opts
    else extracted in
  if negb (truthy tenantSlug) && is_required then
    throw (Error "Tenant context is required but not provided")
  else
    match or_null tenantSlug with
    | None => ret None
    | Some tenantSlug =>
        tenant <- tenants_findUnique_slug tenantSlug ;;
        match tenant with
        | None => throw (Error ("Tenant not found: " ++ tenantSlug))
        | Some tenant =>
            userId <- auth ;;
            match or_null userId with
            | None => throw (Error "User authentication required")
            | Some userId =>
                tenantUser <- tenant_users_findFirst
                  (fun u => (TenantUser.tenant_id u =? Tenant.id tenant)
                            && (TenantUser.clerk_user_id u =? userId)) ;;
                match tenantUser with
                | None => throw (Error ("User not found in tenant: " ++ tenantSlug))
                | Some tenantUser =>
                    let permissions :=
                      getRolePermissions (role_name (TenantUser.role tenantUser)) in
                    ret (Some (mkContext tenant tenantUser permissions))
                end
            end
        end
    end.

Definition validateTenantAccess (tenantId clerkUserId : string)
  : M (option TenantUser.t) :=
  tenant_users_findFirst
    (fun u => (TenantUser.tenant_id u =? tenantId)
              && (TenantUser.clerk_user_id u =? clerkUserId)
              && TenantStatus_eqb (TenantUser.status u) Active).

Definition checkPermission (context : TenantContext) (permission : string) : bool :=
  existsb (fun p => p =? permission) (permissions context).

Definition requirePermission (context : TenantContext) (permission : string)
  : M unit :=
  if negb (checkPermission context permission)
  then throw (Error ("Insufficient permissions: " ++ permission))
  else ret tt.

End Middleware.

(* ------------------------------------------------------------------ *)
(** ** Permission utilities of the types file ([src/types/tenant.ts]) *)

Module Types.

Definition ROLE_PERMISSIONS : list (string * list string) :=
  [ ("admin",
     [ "tenant:read"; "tenant:update"; "tenant:delete";
       "user:read"; "user:create"; "user:update"; "user:delete";
       "invitation:create"; "invitation:delete";
       "settings:read"; "settings:update"; "audit:read" ]);
    ("user", [ "tenant:read"; "user:read"; "settings:read" ]);
    ("viewer", [ "tenant:read"; "user:read" ]) ].

(** [ROLE_PERMISSIONS[userRole]?.includes(permission) || false] *)
Definition hasPermission (userRole permission : string) : bool :=
  match Middleware.lookup userRole ROLE_PERMISSIONS with
  | Some ps => existsb (fun p => p =? permission) ps
  | None => false
  end.

Definition checkPermission (userRole permission : string) : M unit :=
  if negb (hasPermission userRole permission)
  then throw (Error ("Insufficient permissions for action: " ++ permission))
  else ret tt.

End Types.

(* ------------------------------------------------------------------ *)
(** ** Responses of the route handlers ([users/route.ts]) *)

Inductive Body :=
| ErrorBody (error : string)
| ValidationBody
| UsersBody (users : list TenantUser.t)
| UserBody (user : TenantUser.t).

Module Response.
Record t := mk {
  status : nat;
  body : Body
}.
End Response.

(** The request body of POST after [request.json()]. *)
Module CreateUserBody.
Record t := mk {
  clerkUserId : string;
  email : string;
  firstName : option string;
  lastName : option string;
  role : option string
}.
End CreateUserBody.

Module CreateUserData.
Record t := mk {
  clerkUserId : string;
  email : string;
  firstName : option string;
  lastName : option string;
  role : TenantRole
}.
End CreateUserData.

Definition message (e : Exn) : string :=
  match e with
  | TenantBusinessRuleError m | TenantValidationError m | TenantNotFoundError m
  | TenantUserNotFoundError m | TenantPermissionError m | TenantContextError m
  | PrismaError m | Error m => m
  | ZodError => "Validation failed"
  end.

(** [handleApiError] (lines 54-72). *)
Definition handleApiError (e : Exn) : Response.t :=
  match e with
  | ZodError => Response.mk 400 ValidationBody
  | _ =>
      if isTenantError e
      then Response.mk (getTenantErrorStatusCode e) (ErrorBody (message e))
      else Response.mk 500 (ErrorBody "Internal server error")
  end.

(** [try { ... } catch (error) { return handleApiError(error) }] *)
Definition catch_response (m : M Response.t) : M Response.t :=
  fun w =>
    match m w with
    | (Ok r, w1) => (Ok r, w1)
    | (Throw e, w1) => (Ok (handleApiError e), w1)
    end.

(** [new TenantAwarePrismaClient()] and [prisma.$disconnect()]. *)
Definition new_client : M unit := fun w => (Ok tt, set_client_tenantId None w).
Definition disconnect : M unit := ret tt.

(* ------------------------------------------------------------------ *)
(** ** Validation layer ([tenant-constraints.ts])

    Request payloads arrive as [unknown]; here they are records whose
    enumerated fields are still strings and whose optional fields are
    options.  The parsed forms carry the enumerations. *)

Module UserInput.
Record t := mk {
  tenantId : string;
  clerkUserId : string;
  email : string;
  firstName : option string;
  lastName : option string;
  role : option string;
  status : option string;
  metadata : option Json
}.
End UserInput.

Module UserData.
Record t := mk {
  tenantId : string;
  clerkUserId : string;
  email : string;
  firstName : option string;
  lastName : option string;
  role : TenantRole;
  status : TenantStatus;
  metadata : Json
}.
End UserData.

Module InvitationInput.
Record t := mk {
  tenantId : string;
  email : string;
  role : option string;
  status : option string;
  invitedBy : option string;
  token : string;
  expiresAt : Date
}.

(** [{ ...invitationData, token, expiresAt }] *)
Definition with_token_expiry (tok : string) (exp : Date) (x : t) : t :=
  mk (tenantId x) (email x) (role x) (status x) (invitedBy x) tok exp.
End InvitationInput.

Module InvitationData.
Record t := mk {
  tenantId : string;
  email : string;
  role : TenantRole;
  status : InvitationStatus;
  invitedBy : option string;
  token : string;
  expiresAt : Date
}.
End InvitationData.

Module TenantInput.
Record t := mk {
  slug : string;
  name : string;
  settings : option Json;
  status : option string
}.
End TenantInput.

Module TenantData.
Record t := mk {
  slug : string;
  name : string;
  settings : Json;
  status : TenantStatus
}.
End TenantData.

(** An enumerated field with a default: absent gives the default, an
    unknown string is rejected. *)
Definition enum_default {A} (parse : string -> option A) (dflt : A)
  (field : option string) : option A :=
  match field with
  | None => Some dflt
  | Some s => parse s
  end.

(** The character class of [/^[a-z0-9-]+$/]. *)
Definition slug_char (c : ascii) : bool :=
  let n := nat_of_ascii c in
  (((97 <=? n) && (n <=? 122)) || ((48 <=? n) && (n <=? 57)) || (n =? 45))%nat.

Fixpoint all_chars (p : ascii -> bool) (s : string) : bool :=
  match s with
  | EmptyString => true
  | String c rest => p c && all_chars p rest
  end.

Definition slug_regex (s : string) : bool :=
  negb (s =? "")%string && all_chars slug_char s.

Definition TenantSchema (data : TenantInput.t) : Outcome TenantData.t :=
  let slug := TenantInput.slug data in
  let name := TenantInput.name data in
  if negb ((2 <=? String.length slug)%nat && (String.length slug <=? 50)%nat
           && slug_regex slug)
  then Throw ZodError
  else if negb ((1 <=? String.length name)%nat && (String.length name <=? 100)%nat)
  then Throw ZodError
  else
    match enum_default TenantStatusEnum Active (TenantInput.status data) with
    | None => Throw ZodError
    | Some st =>
        Ok (TenantData.mk slug name
              (match TenantInput.settings data with Some s => s | None => [] end)
              st)
    end.

Definition validateTenant (data : TenantInput.t) : M TenantData.t :=
  liftO (TenantSchema data).

Definition validateTenantUserRole (role : string) : M TenantRole :=
  liftO (match TenantRoleEnum role with Some r => Ok r | None => Throw ZodError end).

Definition validateTenantUserStatus (status : string) : M TenantStatus :=
  liftO (match TenantStatusEnum status with Some s => Ok s | None => Throw ZodError end).

(* ------------------------------------------------------------------ *)
(** ** Sample data *)

Definition sample_uuid (n : nat) : string :=
  match n with
  | 0 => "00000000-0000-0000-0000-000000000001"
  | 1 => "00000000-0000-0000-0000-000000000002"
  | 2 => "00000000-0000-0000-0000-000000000003"
  | 3 => "00000000-0000-0000-0000-000000000004"
  | _ => "00000000-0000-0000-0000-000000000005"
  end.

Definition sample_token (n : nat) : string :=
  match n with
  | 0 => "3f9a" | _ => "7c21"
  end.

Definition empty_db : Database := mkDatabase [] [] [].

(** A fresh session on database [d] at time [now], serving a request
    authenticated as [uid]: nothing drawn yet, no scope, no transaction. *)
Definition fresh_session (d : Database) (now : Date) (uid : option string) : World :=
  mkWorld d sample_uuid 0 sample_token 0 now "" None uid false [].

(** Stand-ins for the zod format checks, enough for the sample inputs. *)
Definition sample_zod_uuid (s : string) : bool := (String.length s =? 36)%nat.

Fixpoint contains_at (s : string) : bool :=
  match s with
  | EmptyString => false
  | String c rest => Ascii.eqb c "@" || contains_at rest
  end.

Definition sample_zod_email (s : string) : bool := contains_at s.

Definition acme_id : string := "aaaaaaaa-0000-0000-0000-000000000001".

Definition acme : Tenant.t :=
  Tenant.mk acme_id "acme" "Acme Inc" [] Active 0%Z 0%Z.

Definition acme_owner : TenantUser.t :=
  TenantUser.mk "bbbbbbbb-0000-0000-0000-000000000001" acme_id "ext_1"
    "a@acme.com" None None Owner Active [] 0%Z 0%Z.

Definition acme_admin : TenantUser.t :=
  TenantUser.mk "bbbbbbbb-0000-0000-0000-000000000002" acme_id "ext_2"
    "b@acme.com" None None Admin Active [] 0%Z 0%Z.

Definition acme_suspended_member : TenantUser.t :=
  TenantUser.mk "bbbbbbbb-0000-0000-0000-000000000003" acme_id "ext_3"
    "c@acme.com" None None Admin Suspended [] 0%Z 0%Z.

(** A pending invitation that expired at time 1000. *)
Definition stale_invitation : TenantInvitation.t :=
  TenantInvitation.mk "cccccccc-0000-0000-0000-000000000001" acme_id
    "d@acme.com" Member None "3f9a" Pending 1000%Z None 0%Z 0%Z.

Definition acme_db : Database := mkDatabase [acme] [acme_owner; acme_admin] [].

Definition owner_input : UserInput.t :=
  UserInput.mk acme_id "ext_1" "a@acme.com" None None (Some "owner") None None.

Definition admin_input : UserInput.t :=
  UserInput.mk acme_id "ext_2" "b@acme.com" None None (Some "admin") None None.

Definition acme_input : TenantInput.t :=
  TenantInput.mk "acme" "Acme Inc" None None.

(** Proof support: unfolding the monad and splitting on what it tests. *)
Ltac unfold_monad :=
  unfold validateTenant, validateTenantUserRole,
    validateTenantUserStatus,
    tenants_findUnique_slug, tenants_findUnique_id, tenants_create,
    tenants_update, tenants_delete,
    tenant_users_findFirst, tenant_users_findMany, tenant_users_findUnique,
    tenant_users_count, tenant_users_create, tenant_users_update,
    tenant_users_delete,
    tenant_invitations_findFirst, tenant_invitations_findUnique,
    tenant_invitations_create, tenant_invitations_update,
    transaction, try_finally, access, get_db, put_db, Date_now,
    gen_random_uuid, randomBytes_hex, liftO, bind, ret, throw in *.

Ltac case_step :=
  match goal with
  | |- context [match ?x with _ => _ end] =>
      match x with
      | context [match _ with _ => _ end] => fail 1
      | _ => destruct x eqn:?
      end
  | |- context [if ?x then _ else _] =>
      match x with
      | context [if _ then _ else _] => fail 1
      | _ => destruct x eqn:?
      end
  end.

Ltac cases := repeat (case_step; simpl in *).

Ltac tidy :=
  repeat match goal with
  | H : Some _ = Some _ |- _ => inversion H; subst; clear H
  | H : Ok _ = Ok _ |- _ => inversion H; subst; clear H
  | H : Throw _ = Throw _ |- _ => inversion H; subst; clear H
  | H : (_, _) = (_, _) |- _ => inversion H; subst; clear H
  | H : ?x = ?x |- _ => clear H
  | H : Some _ = None |- _ => discriminate H
  | H : None = Some _ |- _ => discriminate H
  | H : true = false |- _ => discriminate H
  | H : false = true |- _ => discriminate H
  end.

Module TenantStats.
Record t := mk {
  totalUsers : nat;
  adminUsers : nat;
  pendingInvitations : nat
}.
End TenantStats.

Section Services.

(** The format checks of the zod library, [z.string().uuid()] and
    [z.string().email()], and the instant the schema module was loaded
    (the bound of [z.date().min(new Date())]). *)
Variable zod_uuid : string -> bool.
Variable zod_email : string -> bool.
Variable schema_loaded_at : Date.

Definition TenantUserSchema (data : UserInput.t) : Outcome UserData.t :=
  if negb (zod_uuid (UserInput.tenantId data)) then Throw ZodError
  else if negb (1 <=? String.length (UserInput.clerkUserId data))%nat then Throw ZodError
  else if negb (zod_email (UserInput.email data)
                && (String.length (UserInput.email data) <=? 255)%nat)
  then Throw ZodError
  else
    match enum_default TenantRoleEnum Member (UserInput.role data),
          enum_default TenantStatusEnum Active (UserInput.status data) with
    | Some r, Some st =>
        (* refine: email.length > 255 is rejected *)
        if (255 <? String.length (UserInput.email data))%nat then Throw ZodError
        else
          Ok (UserData.mk (UserInput.tenantId data) (UserInput.clerkUserId data)
                (UserInput.email data) (UserInput.firstName data)
                (UserInput.lastName data) r st
                (match UserInput.metadata data with Some m => m | None => [] end))
    | _, _ => Throw ZodError
    end.

Definition validateTenantUser (data : UserInput.t) : M UserData.t :=
  liftO (TenantUserSchema data).

Definition TenantInvitationSchema (now : Date) (data : InvitationInput.t)
  : Outcome InvitationData.t :=
  if negb (zod_uuid (InvitationInput.tenantId data)) then Throw ZodError
  else if negb (zod_email (InvitationInput.email data)
                && (String.length (InvitationInput.email data) <=? 255)%nat)
  then Throw ZodError
  else if negb (match InvitationInput.invitedBy data with
                | Some u => zod_uuid u | None => true end)
  then Throw ZodError
  else if negb (1 <=? String.length (InvitationInput.token data))%nat then Throw ZodError
  else if negb (schema_loaded_at <=? InvitationInput.expiresAt data)%Z then Throw ZodError
  else
    match enum_default TenantRoleEnum Member (InvitationInput.role data),
          enum_default InvitationStatusEnum Pending (InvitationInput.status data) with
    | Some r, Some st =>
        (* refine: expiresAt > new Date() *)
        if negb (now <? InvitationInput.expiresAt data)%Z then Throw ZodError
        else
          Ok (InvitationData.mk (InvitationInput.tenantId data)
                (InvitationInput.email data) r st (InvitationInput.invitedBy data)
                (InvitationInput.token data) (InvitationInput.expiresAt data))
    | _, _ => Throw ZodError
    end.

Definition validateTenantInvitation (data : InvitationInput.t)
  : M InvitationData.t :=
  now <- Date_now ;;
  liftO (TenantInvitationSchema now data).

(* ------------------------------------------------------------------ *)
(** ** TenantUserService ([tenant-user-service.ts], lines 20-263) *)

Definition enforceBusinessRules (userData : UserData.t) : M unit :=
  (if TenantRole_eqb (UserData.role userData) Owner then
     existingOwner <- tenant_users_findFirst
       (fun u => (TenantUser.tenant_id u =? UserData.tenantId userData)
                 && TenantRole_eqb (TenantUser.role u) Owner) ;;
     match existingOwner with
     | Some _ => throw (TenantBusinessRuleError "Tenant already has an owner")
     | None => ret tt
     end
   else ret tt) ;;
  existingUser <- tenant_users_findFirst
    (fun u => (TenantUser.tenant_id u =? UserData.tenantId userData)
              && (TenantUser.clerk_user_id u =? UserData.clerkUserId userData)) ;;
  match existingUser with
  | Some _ => throw (TenantBusinessRuleError "User already exists in this tenant")
  | None =>
      existingEmail <- tenant_users_findFirst
        (fun u => (TenantUser.tenant_id u =? UserData.tenantId userData)
                  && (TenantUser.email u =? UserData.email userData)) ;;
      match existingEmail with
      | Some _ => throw (TenantBusinessRuleError "Email already exists in this tenant")
      | None => ret tt
      end
  end.

Definition enforceOwnershipRules (userId : string) (newRole : TenantRole)
  (tenantId : string) : M unit :=
  if TenantRole_eqb newRole Owner then
    existingOwner <- tenant_users_findFirst
      (fun u => (TenantUser.tenant_id u =? tenantId)
                && TenantRole_eqb (TenantUser.role u) Owner
                && negb (TenantUser.id u =? userId)) ;;
    match existingOwner with
    | Some _ => throw (TenantBusinessRuleError
                         "Cannot assign owner role - tenant already has an owner")
    | None => ret tt
    end
  else
    adminCount <- tenant_users_count
      (fun u => (TenantUser.tenant_id u =? tenantId)
                && TenantRole_eqb (TenantUser.role u) Admin
                && negb (TenantUser.id u =? userId)) ;;
    if (adminCount =? 0)%nat then
      throw (TenantBusinessRuleError
               "Cannot remove owner role - tenant must have at least one admin")
    else ret tt.

Definition createUser (userData : UserInput.t) : M TenantUser.t :=
  validatedData <- validateTenantUser userData ;;
  enforceBusinessRules validatedData ;;
  transaction (
    existingUser <- tenant_users_findFirst
      (fun u => (TenantUser.tenant_id u =? UserData.tenantId validatedData)
                && (TenantUser.clerk_user_id u =? UserData.clerkUserId validatedData)) ;;
    match existingUser with
    | Some _ => throw (TenantBusinessRuleError "User already exists in this tenant")
    | None =>
        tenant_users_create
          (UserCreate.mk (Some (UserData.tenantId validatedData))
             (UserData.clerkUserId validatedData) (UserData.email validatedData)
             (UserData.firstName validatedData) (UserData.lastName validatedData)
             (UserData.role validatedData) (UserData.status validatedData)
             (Some (UserData.metadata validatedData)))
    end).

Definition updateUserRole (userId : string) (newRole : string) : M TenantUser.t :=
  validRole <- validateTenantUserRole newRole ;;
  transaction (
    currentUser <- tenant_users_findUnique userId ;;
    match currentUser with
    | None => throw (TenantUserNotFoundError "User not found")
    | Some currentUser =>
        (if TenantRole_eqb validRole Owner
            || TenantRole_eqb (TenantUser.role currentUser) Owner
         then enforceOwnershipRules userId validRole
                (TenantUser.tenant_id currentUser)
         else ret tt) ;;
        tenant_users_update userId (TenantUser.with_role validRole)
    end).

Definition updateUserStatus (userId : string) (newStatus : string)
  : M TenantUser.t :=
  validStatus <- validateTenantUserStatus newStatus ;;
  transaction (
    currentUser <- tenant_users_findUnique userId ;;
    match currentUser with
    | None => throw (TenantUserNotFoundError "User not found")
    | Some currentUser =>
        (if TenantStatus_eqb validStatus Suspended
            && TenantRole_eqb (TenantUser.role currentUser) Owner
         then
           activeOwnerCount <- tenant_users_count
             (fun u => (TenantUser.tenant_id u =? TenantUser.tenant_id currentUser)
                       && TenantRole_eqb (TenantUser.role u) Owner
                       && TenantStatus_eqb (TenantUser.status u) Active) ;;
           if (activeOwnerCount =? 1)%nat then
             throw (TenantBusinessRuleError "Cannot suspend the last active owner")
           else ret tt
         else ret tt) ;;
        tenant_users_update userId (TenantUser.with_status validStatus)
    end).

Definition deleteUser (userId : string) : M TenantUser.t :=
  transaction (
    currentUser <- tenant_users_findUnique userId ;;
    match currentUser with
    | None => throw (TenantUserNotFoundError "User not found")
    | Some currentUser =>
        (if TenantRole_eqb (TenantUser.role currentUser) Owner then
           ownerCount <- tenant_users_count
             (fun u => (TenantUser.tenant_id u =? TenantUser.tenant_id currentUser)
                       && TenantRole_eqb (TenantUser.role u) Owner) ;;
           if (ownerCount =? 1)%nat then
             throw (TenantBusinessRuleError "Cannot delete the last owner")
           else ret tt
         else ret tt) ;;
        tenant_users_delete userId
    end).

Definition getUserById (userId : string) : M TenantUser.t :=
  user <- tenant_users_findUnique userId ;;
  match user with
  | None => throw (TenantUserNotFoundError "User not found")
  | Some user => ret user
  end.

(* ------------------------------------------------------------------ *)
(** ** TenantInvitationService ([tenant-user-service.ts], lines 279-495) *)

Definition seven_days : Z := 604800000.

Definition createInvitation (invitationData : InvitationInput.t)
  : M TenantInvitation.t :=
  token <- randomBytes_hex ;;
  now <- Date_now ;;
  let expiresAt := (now + seven_days)%Z in
  validatedData <- validateTenantInvitation
    (InvitationInput.with_token_expiry token expiresAt invitationData) ;;
  transaction (
    existingInvitation <- tenant_invitations_findFirst
      (fun i => (TenantInvitation.tenant_id i =? InvitationData.tenantId validatedData)
                && (TenantInvitation.email i =? InvitationData.email validatedData)
                && InvitationStatus_eqb (TenantInvitation.status i) Pending) ;;
    match existingInvitation with
    | Some _ => throw (TenantBusinessRuleError "User already has a pending invitation")
    | None =>
        existingMember <- tenant_users_findFirst
          (fun u => (TenantUser.tenant_id u =? InvitationData.tenantId validatedData)
                    && (TenantUser.email u =? InvitationData.email validatedData)) ;;
        match existingMember with
        | Some _ =>
            throw (TenantBusinessRuleError "User is already a member of this tenant")
        | None =>
            (if TenantRole_eqb (InvitationData.role validatedData) Owner then
               existingOwner <- tenant_users_findFirst
                 (fun u => (TenantUser.tenant_id u
                              =? InvitationData.tenantId validatedData)
                           && TenantRole_eqb (TenantUser.role u) Owner) ;;
               match existingOwner with
               | Some _ => throw (TenantBusinessRuleError "Tenant already has an owner")
               | None => ret tt
               end
             else ret tt) ;;
            tenant_invitations_create
              (InvitationCreate.mk (InvitationData.tenantId validatedData)
                 (InvitationData.email validatedData)
                 (InvitationData.role validatedData)
                 (InvitationData.invitedBy validatedData)
                 (InvitationData.token validatedData)
                 (InvitationData.status validatedData)
                 (InvitationData.expiresAt validatedData))
        end
    end).

Definition acceptInvitation (invitationId clerkUserId : string) : M TenantUser.t :=
  transaction (
    invitation <- tenant_invitations_findUnique invitationId ;;
    match invitation with
    | None => throw (TenantBusinessRuleError "Invalid or expired invitation")
    | Some invitation =>
        if negb (InvitationStatus_eqb (TenantInvitation.status invitation) Pending)
        then throw (TenantBusinessRuleError "Invalid or expired invitation")
        else
          now <- Date_now ;;
          if (TenantInvitation.expires_at invitation <? now)%Z then
            tenant_invitations_update invitationId
              (TenantInvitation.with_status Expired) ;;
            throw (TenantBusinessRuleError "Invitation has expired")
          else
            existingMember <- tenant_users_findFirst
              (fun u => (TenantUser.tenant_id u
                           =? TenantInvitation.tenant_id invitation)
                        && (TenantUser.clerk_user_id u =? clerkUserId)) ;;
            match existingMember with
            | Some _ =>
                throw (TenantBusinessRuleError
                         "User is already a member of this tenant")
            | None =>
                (if TenantRole_eqb (TenantInvitation.role invitation) Owner then
                   existingOwner <- tenant_users_findFirst
                     (fun u => (TenantUser.tenant_id u
                                  =? TenantInvitation.tenant_id invitation)
                               && TenantRole_eqb (TenantUser.role u) Owner) ;;
                   match existingOwner with
                   | Some _ =>
                       throw (TenantBusinessRuleError "Tenant already has an owner")
                   | None => ret tt
                   end
                 else ret tt) ;;
                user <- tenant_users_create
                  (UserCreate.mk (Some (TenantInvitation.tenant_id invitation))
                     clerkUserId (TenantInvitation.email invitation) None None
                     (TenantInvitation.role invitation) Active None) ;;
                accepted <- Date_now ;;
                tenant_invitations_update invitationId
                  (fun i => TenantInvitation.with_accepted_at accepted
                              (TenantInvitation.with_status Accepted i)) ;;
                ret user
            end
    end).

Definition revokeInvitation (invitationId : string) : M TenantInvitation.t :=
  transaction (
    invitation <- tenant_invitations_findUnique invitationId ;;
    match invitation with
    | None => throw (TenantNotFoundError "Invitation not found")
    | Some invitation =>
        if negb (InvitationStatus_eqb (TenantInvitation.status invitation) Pending)
        then throw (TenantBusinessRuleError "Only pending invitations can be revoked")
        else tenant_invitations_update invitationId
               (TenantInvitation.with_status Revoked)
    end).

(* ------------------------------------------------------------------ *)
(** ** TenantService ([tenant-service.ts], lines 13-239) *)

Definition createTenant (tenantData : TenantInput.t)
  (ownerClerkUserId ownerEmail : string) : M (Tenant.t * TenantUser.t) :=
  validatedData <- validateTenant tenantData ;;
  transaction (
    existingTenant <- tenants_findUnique_slug (TenantData.slug validatedData) ;;
    match existingTenant with
    | Some _ => throw (TenantBusinessRuleError "Tenant slug already exists")
    | None =>
        tenant <- tenants_create
          (TenantCreate.mk (TenantData.slug validatedData)
             (TenantData.name validatedData) (TenantData.settings validatedData)
             (TenantData.status validatedData)) ;;
        ownerUser <- tenant_users_create
          (UserCreate.mk (Some (Tenant.id tenant)) ownerClerkUserId ownerEmail
             None None Owner Active None) ;;
        ret (tenant, ownerUser)
    end).

Definition getTenantById (tenantId : string) : M Tenant.t :=
  tenant <- tenants_findUnique_id tenantId ;;
  match tenant with
  | None => throw (TenantNotFoundError "Tenant not found")
  | Some tenant => ret tenant
  end.

Definition getTenantBySlug (slug : string) : M Tenant.t :=
  tenant <- tenants_findUnique_slug slug ;;
  match tenant with
  | None => throw (TenantNotFoundError "Tenant not found")
  | Some tenant => ret tenant
  end.

Definition suspendTenant (tenantId : string) : M Tenant.t :=
  transaction (
    existingTenant <- tenants_findUnique_id tenantId ;;
    match existingTenant with
    | None => throw (TenantNotFoundError "Tenant not found")
    | Some existingTenant =>
        if TenantStatus_eqb (Tenant.status existingTenant) Suspended
        then throw (TenantBusinessRuleError "Tenant is already suspended")
        else tenants_update tenantId (Tenant_with_status Suspended)
    end).

Definition activateTenant (tenantId : string) : M Tenant.t :=
  transaction (
    existingTenant <- tenants_findUnique_id tenantId ;;
    match existingTenant with
    | None => throw (TenantNotFoundError "Tenant not found")
    | Some existingTenant =>
        if TenantStatus_eqb (Tenant.status existingTenant) Active
        then throw (TenantBusinessRuleError "Tenant is already active")
        else tenants_update tenantId (Tenant_with_status Active)
    end).

Definition deleteTenant (tenantId : string) : M Tenant.t :=
  transaction (
    existingTenant <- tenants_findUnique_id tenantId ;;
    match existingTenant with
    | None => throw (TenantNotFoundError "Tenant not found")
    | Some _ =>
        userCount <- tenant_users_count
          (fun u => TenantUser.tenant_id u =? tenantId) ;;
        if (0 <? userCount)%nat
        then throw (TenantBusinessRuleError "Cannot delete tenant with active users")
        else tenants_delete tenantId
    end).

Definition getTenantUsers (tenantId : string) : M (list TenantUser.t) :=
  tenant_users_findMany_desc (fun u => TenantUser.tenant_id u =? tenantId).

Definition getTenantOwner (tenantId : string) : M TenantUser.t :=
  owner <- tenant_users_findFirst
    (fun u => (TenantUser.tenant_id u =? tenantId)
              && TenantRole_eqb (TenantUser.role u) Owner) ;;
  match owner with
  | None => throw (TenantNotFoundError "Tenant owner not found")
  | Some owner => ret owner
  end.

(** [updateTenant] (lines 59-90).  The payload goes through the full
    tenant schema, so absent [settings] and [status] take their defaults,
    and [data: validatedData] writes all four fields. *)
Definition Tenant_with_data (v : TenantData.t) (x : Tenant.t) : Tenant.t :=
  Tenant.mk (Tenant.id x) (TenantData.slug v) (TenantData.name v)
            (TenantData.settings v) (TenantData.status v)
            (Tenant.created_at x) (Tenant.updated_at x).

Definition updateTenant (tenantId : string) (updateData : TenantInput.t)
  : M Tenant.t :=
  validatedData <- validateTenant updateData ;;
  transaction (
    existingTenant <- tenants_findUnique_id tenantId ;;
    match existingTenant with
    | None => throw (TenantNotFoundError "Tenant not found")
    | Some existingTenant =>
        (if negb (TenantData.slug validatedData =? "")
            && negb (TenantData.slug validatedData =? Tenant.slug existingTenant)
         then
           slugExists <- tenants_findUnique_slug (TenantData.slug validatedData) ;;
           match slugExists with
           | Some _ => throw (TenantBusinessRuleError "Tenant slug already exists")
           | None => ret tt
           end
         else ret tt) ;;
        tenants_update tenantId (Tenant_with_data validatedData)
    end).


(** [getTenantStats] (lines 213-238): three counts awaited together. *)
Definition getTenantStats (tenantId : string) : M TenantStats.t :=
  userCount <- tenant_users_count (fun u => TenantUser.tenant_id u =? tenantId) ;;
  adminCount <- tenant_users_count
    (fun u => (TenantUser.tenant_id u =? tenantId)
              && (TenantRole_eqb (TenantUser.role u) Owner
                  || TenantRole_eqb (TenantUser.role u) Admin)) ;;
  now <- Date_now ;;
  pendingInvitations <- tenant_invitations_count
    (fun i => (TenantInvitation.tenant_id i =? tenantId)
              && InvitationStatus_eqb (TenantInvitation.status i) Pending
              && (now <? TenantInvitation.expires_at i)%Z) ;;
  ret (TenantStats.mk userCount adminCount pendingInvitations).

(** The read methods of the two services in [tenant-user-service.ts]. *)
Definition getUsersByTenant (tenantId : string) : M (list TenantUser.t) :=
  tenant_users_findMany_desc (fun u => TenantUser.tenant_id u =? tenantId).

Definition getInvitationByToken (token : string) : M TenantInvitation.t :=
  invitation <- tenant_invitations_findFirst
    (fun i => TenantInvitation.token i =? token) ;;
  match invitation with
  | None => throw (TenantNotFoundError "Invitation not found")
  | Some invitation => ret invitation
  end.

Definition getInvitationsByTenant (tenantId : string)
  : M (list TenantInvitation.t) :=
  tenant_invitations_findMany_desc
    (fun i => TenantInvitation.tenant_id i =? tenantId).

Definition pending_unexpired (tenantId : string) (now : Date)
  (i : TenantInvitation.t) : bool :=
  (TenantInvitation.tenant_id i =? tenantId)
  && InvitationStatus_eqb (TenantInvitation.status i) Pending
  && (now <? TenantInvitation.expires_at i)%Z.

Definition getPendingInvitationsByTenant (tenantId : string)
  : M (list TenantInvitation.t) :=
  now <- Date_now ;;
  tenant_invitations_findMany_desc (pending_unexpired tenantId now).

Definition pending_expired (now : Date) (i : TenantInvitation.t) : bool :=
  InvitationStatus_eqb (TenantInvitation.status i) Pending
  && (TenantInvitation.expires_at i <? now)%Z.

Definition cleanupExpiredInvitations : M nat :=
  now <- Date_now ;;
  tenant_invitations_updateMany (pending_expired now)
    (TenantInvitation.with_status Expired).

(* ------------------------------------------------------------------ *)
(** ** The membership route ([users/route.ts]) *)

(** [createUserSchema] (lines 25-31). *)
Definition createUserSchema (b : CreateUserBody.t) : Outcome CreateUserData.t :=
  if negb (1 <=? String.length (CreateUserBody.clerkUserId b))%nat then Throw ZodError
  else if negb (zod_email (CreateUserBody.email b)) then Throw ZodError
  else
    match enum_default TenantRoleEnum Member (CreateUserBody.role b) with
    | None => Throw ZodError
    | Some r =>
        Ok (CreateUserData.mk (CreateUserBody.clerkUserId b) (CreateUserBody.email b)
              (CreateUserBody.firstName b) (CreateUserBody.lastName b) r)
    end.

(** The payload POST hands to [createUser] (lines 144-152). *)
Definition createUser_payload (tenantId : string) (v : CreateUserData.t)
  : UserInput.t :=
  UserInput.mk tenantId (CreateUserData.clerkUserId v) (CreateUserData.email v)
    (CreateUserData.firstName v) (CreateUserData.lastName v)
    (Some (role_name (CreateUserData.role v))) (Some "active") None.

(** The helper [getTenantBySlug] of the route (lines 42-51). *)
Definition route_getTenantBySlug (slug : string) : M Tenant.t :=
  new_client ;;
  try_finally (getTenantBySlug slug) disconnect.

Definition unauthorized : Response.t := Response.mk 401 (ErrorBody "Unauthorized").

(** [GET /api/tenants/[slug]/users] (lines 78-109). *)
Definition route_GET (slug : string) : M Response.t :=
  catch_response (
    userId <- Middleware.auth ;;
    if negb (Middleware.truthy userId) then ret unauthorized
    else
      tenant <- route_getTenantBySlug slug ;;
      new_client ;;
      try_finally
        (users <- getTenantUsers (Tenant.id tenant) ;;
         ret (Response.mk 200 (UsersBody users)))
        disconnect).

(** [POST /api/tenants/[slug]/users] (lines 115-161); [None] stands for
    a body that is not JSON. *)
Definition route_POST (slug : string) (body : option CreateUserBody.t)
  : M Response.t :=
  catch_response (
    userId <- Middleware.auth ;;
    if negb (Middleware.truthy userId) then ret unauthorized
    else
      match body with
      | None => throw (Error "Unexpected token in JSON")
      | Some body =>
          validatedData <- liftO (createUserSchema body) ;;
          tenant <- route_getTenantBySlug slug ;;
          new_client ;;
          Gateway.setTenantContext (Tenant.id tenant) ;;
          try_finally
            (user <- createUser (createUser_payload (Tenant.id tenant) validatedData) ;;
             ret (Response.mk 201 (UserBody user)))
            disconnect
      end).

(* ------------------------------------------------------------------ *)
(** ** The business-rule operations as one family *)

Inductive Operation :=
| OpCreateUser (userData : UserInput.t)
| OpUpdateUserRole (userId : string) (newRole : string)
| OpUpdateUserStatus (userId : string) (newStatus : string)
| OpDeleteUser (userId : string)
| OpCreateTenant (tenantData : TenantInput.t) (ownerClerkUserId ownerEmail : string)
| OpCreateInvitation (invitationData : InvitationInput.t)
| OpAcceptInvitation (invitationId clerkUserId : string)
| OpRevokeInvitation (invitationId : string)
| OpDeleteTenant (tenantId : string).

Definition discard {A} (m : M A) : M unit := _ <- m ;; ret tt.

Definition exec (op : Operation) : M unit :=
  match op with
  | OpCreateUser d => discard (createUser d)
  | OpUpdateUserRole u r => discard (updateUserRole u r)
  | OpUpdateUserStatus u s => discard (updateUserStatus u s)
  | OpDeleteUser u => discard (deleteUser u)
  | OpCreateTenant d o e => discard (createTenant d o e)
  | OpCreateInvitation d => discard (createInvitation d)
  | OpAcceptInvitation i c => discard (acceptInvitation i c)
  | OpRevokeInvitation i => discard (revokeInvitation i)
  | OpDeleteTenant t => discard (deleteTenant t)
  end.

(** The four membership operations. *)
Definition membership_op (op : Operation) : bool :=
  match op with
  | OpCreateUser _ | OpUpdateUserRole _ _ | OpUpdateUserStatus _ _
  | OpDeleteUser _ => true
  | _ => false
  end.

(** Running a sequence of operations one after the other; a failed
    operation leaves the world it ended in to the next one. *)
Fixpoint run (ops : list Operation) (w : World) : World :=
  match ops with
  | [] => w
  | op :: rest => run rest (snd (exec op w))
  end.

(** The events one operation adds, oldest first. *)
Definition events_of (op : Operation) (w : World) : list Event :=
  rev (trace (snd (exec op (set_trace [] w)))).

(* ------------------------------------------------------------------ *)
(** ** Ownership of a tenant *)

Definition is_owner_of (tid : string) (u : TenantUser.t) : bool :=
  (TenantUser.tenant_id u =? tid) && TenantRole_eqb (TenantUser.role u) Owner.

(** The number of memberships with role owner in tenant [tid]. *)
Definition owner_count (tid : string) (d : Database) : nat :=
  length (filter (is_owner_of tid) (tenant_users d)).



(** The row maps of [update] with [{ role }] and with [{ status }]. *)
Definition role_update (uid : string) (role : TenantRole) (now : Date)
  (r : TenantUser.t) : TenantUser.t :=
  if TenantUser.id r =? uid
  then TenantUser.touch now (TenantUser.with_role role r) else r.

Definition status_update (uid : string) (st : TenantStatus) (now : Date)
  (r : TenantUser.t) : TenantUser.t :=
  if TenantUser.id r =? uid
  then TenantUser.touch now (TenantUser.with_status st r) else r.

(** The [where] clauses of [enforceOwnershipRules]. *)
Definition other_owner (tid uid : string) (u : TenantUser.t) : bool :=
  (TenantUser.tenant_id u =? tid) && TenantRole_eqb (TenantUser.role u) Owner
  && negb (TenantUser.id u =? uid).

Definition other_admin (tid uid : string) (u : TenantUser.t) : bool :=
  (TenantUser.tenant_id u =? tid) && TenantRole_eqb (TenantUser.role u) Admin
  && negb (TenantUser.id u =? uid).

(** The row [createUser] inserts for validated data [v]. *)
Definition new_user_row (v : UserData.t) (w : World) : TenantUser.t :=
  TenantUser.mk (uuid_source w (uuid_drawn w)) (UserData.tenantId v)
    (UserData.clerkUserId v) (UserData.email v) (UserData.firstName v)
    (UserData.lastName v) (UserData.role v) (UserData.status v)
    (UserData.metadata v) (clock w) (clock w).

(* ------------------------------------------------------------------ *)
(** ** Transactions and the session scope along an operation's trace *)

(** What the specification asks of every table access of an operation:
    made inside a transaction and, on a tenant-scoped table, with the
    session scope set. *)
Definition scope_held (e : Event) : Prop :=
  match e with
  | EvAccess tb _ intx scope =>
      intx = true /\ (tenant_scoped tb = true -> scope <> "")
  | _ => True
  end.

(** What the operations do: they never touch the session setting, so an
    access sees the scope [scope0] the session started with; an access
    outside the transaction is a read of [tenant_users] made by
    [createUser]. *)
Definition discipline (op : Operation) (scope0 : string) (e : Event) : Prop :=
  match e with
  | EvSetConfig _ => False
  | EvAccess tb write intx scope =>
      scope = scope0 /\
      (intx = false ->
       write = false /\ tb = T_tenant_users /\ exists d, op = OpCreateUser d)
  | _ => True
  end.

Definition is_begin (e : Event) : bool :=
  match e with EvBegin => true | _ => false end.

Definition transactions_opened (evs : list Event) : nat :=
  length (filter is_begin evs).

(* ------------------------------------------------------------------ *)
(** ** Atomicity *)

(** A computation is atomic when a thrown error leaves every table as it
    was, and read-only when it never changes a table. *)
Definition atomic {A} (m : M A) : Prop :=
  forall w e w', m w = (Throw e, w') -> db w' = db w.

Definition readonly {A} (m : M A) : Prop :=
  forall w, db (snd (m w)) = db w.


(* ------------------------------------------------------------------ *)
(** ** Uniqueness of memberships and invitations *)

Definition same_identity (tid cid : string) (u : TenantUser.t) : bool :=
  (TenantUser.tenant_id u =? tid) && (TenantUser.clerk_user_id u =? cid).

Definition same_email (tid em : string) (u : TenantUser.t) : bool :=
  (TenantUser.tenant_id u =? tid) && (TenantUser.email u =? em).

(** At most one membership per tenant and identity, and per tenant and
    email. *)
Definition identity_unique (d : Database) : Prop :=
  forall tid cid, length (filter (same_identity tid cid) (tenant_users d)) <= 1.

Definition email_unique (d : Database) : Prop :=
  forall tid em, length (filter (same_email tid em) (tenant_users d)) <= 1.



(** The row map of an invitation [update] by primary key. *)
Definition invitation_update (id : string)
  (f : TenantInvitation.t -> TenantInvitation.t) (now : Date)
  (r : TenantInvitation.t) : TenantInvitation.t :=
  if TenantInvitation.id r =? id then TenantInvitation.touch now (f r) else r.

Definition accept_fields (now : Date) (i : TenantInvitation.t) : TenantInvitation.t :=
  TenantInvitation.with_accepted_at now (TenantInvitation.with_status Accepted i).

(** The membership [acceptInvitation] inserts for invitation [inv]. *)
Definition accepted_user_row (inv : TenantInvitation.t) (clerkUserId : string)
  (w : World) : TenantUser.t :=
  TenantUser.mk (uuid_source w (uuid_drawn w)) (TenantInvitation.tenant_id inv)
    clerkUserId (TenantInvitation.email inv) None None
    (TenantInvitation.role inv) Active [] (clock w) (clock w).

Definition same_pending (tid em : string) (i : TenantInvitation.t) : bool :=
  (TenantInvitation.tenant_id i =? tid) && (TenantInvitation.email i =? em)
  && InvitationStatus_eqb (TenantInvitation.status i) Pending.

(** At most one pending invitation per tenant and email. *)
Definition pending_unique (d : Database) : Prop :=
  forall tid em, length (filter (same_pending tid em) (tenant_invitations d)) <= 1.

(** The slug format of the tenant schema. *)
Definition slug_ok (slug : string) : bool :=
  (2 <=? String.length slug)%nat && (String.length slug <=? 50)%nat
  && slug_regex slug.

(** Tenants have unique ids, unique slugs, and slugs of the schema's
    format. *)
Definition tenants_well_formed (d : Database) : Prop :=
  NoDup (map Tenant.id (tenants d)) /\
  NoDup (map Tenant.slug (tenants d)) /\
  Forall (fun t => slug_ok (Tenant.slug t) = true) (tenants d).

Definition set_clock (now : Date) (w : World) : World :=
  mkWorld (db w) (uuid_source w) (uuid_drawn w) (token_source w) (tokens_drawn w)
          now (current_tenant_id w) (client_tenantId w) (auth_userId w)
          (in_tx w) (trace w).

(** What can happen to the store over time: one of the nine operations,
    a tenant update, suspension or activation, the clean-up of expired
    invitations, or the clock moving. *)
Inductive Step :=
| Do (op : Operation)
| UpdateTenant (tenantId : string) (updateData : TenantInput.t)
| SuspendTenant (tenantId : string)
| ActivateTenant (tenantId : string)
| Cleanup
| Tick (now : Date).

Definition step (s : Step) (w : World) : World :=
  match s with
  | Do op => snd (exec op w)
  | UpdateTenant t d => snd (updateTenant t d w)
  | SuspendTenant t => snd (suspendTenant t w)
  | ActivateTenant t => snd (activateTenant t w)
  | Cleanup => snd (cleanupExpiredInvitations w)
  | Tick now => set_clock now w
  end.

Fixpoint steps (l : list Step) (w : World) : World :=
  match l with
  | [] => w
  | s :: rest => steps rest (step s w)
  end.

(** Newest first. *)
Definition newest_first {A} (key : A -> Date) (l : list A) : Prop :=
  StronglySorted (fun a b => (key b <= key a)%Z) l.

Definition set_auth_userId (uid : option string) (w : World) : World :=
  mkWorld (db w) (uuid_source w) (uuid_drawn w) (token_source w) (tokens_drawn w)
          (clock w) (current_tenant_id w) (client_tenantId w) uid
          (in_tx w) (trace w).

(** Whether character [c] occurs in [s]. *)
Fixpoint contains_char (c : ascii) (s : string) : bool :=
  match s with
  | EmptyString => false
  | String a rest => Ascii.eqb a c || contains_char c rest
  end.


(* ------------------------------------------------------------------ *)
(** ** Proof support *)

Ltac unfold_svc :=
  unfold discard, validateTenantUser, validateTenantInvitation in *;
  unfold_monad.

(** *** Counting rows *)

Lemma count_pos : forall (A : Type) (p : A -> bool) (l : list A) (x : A),
  In x l -> p x = true -> 1 <= length (filter p l).
Proof.
  intros A p l x Hin Hp.
  assert (Hf : In x (filter p l)) by (apply filter_In; split; assumption).
  destruct (filter p l); [contradiction | simpl; lia].
Qed.


Lemma count_map_le : forall (A : Type) (p q : A -> bool) (g : A -> A) (l : list A),
  (forall x, In x l -> p (g x) = true -> q x = true) ->
  length (filter p (map g l)) <= length (filter q l).
Proof.
  intros A p q g l. induction l as [|a l IH]; intros H; simpl; [lia|].
  assert (IH' : length (filter p (map g l)) <= length (filter q l))
    by (apply IH; intros x Hx; apply H; right; exact Hx).
  destruct (p (g a)) eqn:Ep.
  - rewrite (H a (or_introl eq_refl) Ep). simpl. lia.
  - destruct (q a); simpl; lia.
Qed.

Lemma count_le : forall (A : Type) (p q : A -> bool) (l : list A),
  (forall x, In x l -> p x = true -> q x = true) ->
  length (filter p l) <= length (filter q l).
Proof.
  intros A p q l H.
  rewrite <- (map_id l) at 1. apply count_map_le. exact H.
Qed.

Lemma count_filter_le : forall (A : Type) (p q : A -> bool) (l : list A),
  length (filter p (filter q l)) <= length (filter p l).
Proof.
  intros A p q l. induction l as [|a l IH]; simpl; [lia|].
  destruct (q a); simpl; destruct (p a); simpl; lia.
Qed.


Lemma count_app1 : forall (A : Type) (p : A -> bool) (l : list A) (x : A),
  length (filter p (l ++ [x])) = length (filter p l) + (if p x then 1 else 0).
Proof.
  intros A p l x. rewrite filter_app, length_app. simpl.
  destruct (p x); reflexivity.
Qed.

Lemma find_none_count : forall (A : Type) (p : A -> bool) (l : list A),
  find p l = None -> length (filter p l) = 0.
Proof.
  intros A p l H. induction l as [|a l IH]; simpl in *; [reflexivity|].
  destruct (p a); [discriminate | apply IH; exact H].
Qed.

(** *** Primary keys *)

Lemma key_injective : forall (A : Type) (key : A -> string) (l : list A) (x y : A),
  NoDup (map key l) -> In x l -> In y l -> key x = key y -> x = y.
Proof.
  intros A key l. induction l as [|a l IH]; intros x y Hnd Hx Hy Hk; [contradiction|].
  simpl in Hnd. inversion Hnd as [|? ? Hnotin Hnd']; subst.
  destruct Hx as [->|Hx], Hy as [->|Hy].
  - reflexivity.
  - exfalso. apply Hnotin. rewrite Hk. apply in_map. exact Hy.
  - exfalso. apply Hnotin. rewrite <- Hk. apply in_map. exact Hx.
  - apply IH; assumption.
Qed.


Lemma keys_filter : forall (A : Type) (key : A -> string) (q : A -> bool) (l : list A),
  NoDup (map key l) -> NoDup (map key (filter q l)).
Proof.
  intros A key q l. induction l as [|a l IH]; intros Hnd; simpl; [constructor|].
  simpl in Hnd. inversion Hnd as [|? ? Hnotin Hnd']; subst.
  destruct (q a); simpl; [|apply IH; exact Hnd'].
  constructor; [|apply IH; exact Hnd'].
  intros Hin. apply Hnotin. apply in_map_iff in Hin. destruct Hin as [x [Hx Hin]].
  apply filter_In in Hin. rewrite <- Hx. apply in_map. tauto.
Qed.

Lemma keys_map : forall (A : Type) (key : A -> string) (g : A -> A) (l : list A),
  (forall x, key (g x) = key x) -> map key (map g l) = map key l.
Proof.
  intros A key g l H. rewrite map_map. apply map_ext. exact H.
Qed.

Lemma keys_app1 : forall (A : Type) (key : A -> string) (l : list A) (x : A),
  NoDup (map key l) -> existsb (fun r => key r =? key x) l = false ->
  NoDup (map key (l ++ [x])).
Proof.
  intros A key l x Hnd Hex. rewrite map_app. simpl.
  apply NoDup_app.
  - exact Hnd.
  - constructor; [intros []|constructor].
  - intros k Hk [Hx|[]]. subst k.
    apply in_map_iff in Hk. destruct Hk as [r [Hr Hin]].
    assert (existsb (fun r => key r =? key x) l = true).
    { apply existsb_exists. exists r. split; [exact Hin|]. apply String.eqb_eq. exact Hr. }
    congruence.
Qed.

Lemma TenantRole_eqb_eq : forall a b, TenantRole_eqb a b = true <-> a = b.
Proof. intros [] []; simpl; split; intros H; congruence. Qed.


Lemma TenantStatus_eqb_eq : forall a b, TenantStatus_eqb a b = true <-> a = b.
Proof. intros [] []; simpl; split; intros H; congruence. Qed.

Lemma InvitationStatus_eqb_eq : forall a b, InvitationStatus_eqb a b = true <-> a = b.
Proof. intros [] []; simpl; split; intros H; congruence. Qed.


(** *** What each membership operation does to the tables *)

Lemma createUser_effect : forall d w,
  db (snd (createUser d w)) = db w \/
  exists v,
    TenantUserSchema d = Ok v /\
    (UserData.role v = Owner ->
     find (is_owner_of (UserData.tenantId v)) (tenant_users (db w)) = None) /\
    existsb (fun u => TenantUser.id u =? TenantUser.id (new_user_row v w))
            (tenant_users (db w)) = false /\
    db (snd (createUser d w)) =
      replace_tenant_users (tenant_users (db w) ++ [new_user_row v w]) (db w).
Proof.
  intros d w. unfold createUser, enforceBusinessRules.
  unfold_svc. simpl. cases; tidy; try (left; reflexivity).
  all: right; eexists; repeat split; try eassumption; try reflexivity.
  - intros _. assumption.
  - intros Hr. rewrite Hr in *. discriminate.
Qed.

Lemma updateUserRole_effect : forall uid r w,
  db (snd (updateUserRole uid r w)) = db w \/
  exists role cur,
    TenantRoleEnum r = Some role /\
    find (fun u => TenantUser.id u =? uid) (tenant_users (db w)) = Some cur /\
    (role = Owner ->
     find (other_owner (TenantUser.tenant_id cur) uid) (tenant_users (db w)) = None) /\
    (role <> Owner -> TenantUser.role cur = Owner ->
     length (filter (other_admin (TenantUser.tenant_id cur) uid)
                    (tenant_users (db w))) <> 0) /\
    db (snd (updateUserRole uid r w)) =
      replace_tenant_users
        (map (role_update uid role (clock w)) (tenant_users (db w))) (db w).
Proof.
  intros uid r w. unfold updateUserRole, enforceOwnershipRules.
  unfold_svc. simpl. cases; tidy; try (left; reflexivity).
  all: right; eexists; eexists; repeat split; try eassumption; try reflexivity.
  all: try (intros Hr; rewrite Hr in *; simpl in *; discriminate).
  all: try (intros; assumption).
  all: intros Hn Hc.
  all: try (exfalso; apply Hn; apply TenantRole_eqb_eq; assumption).
  all: try (apply Nat.eqb_neq; assumption).
  all: rewrite Hc in *; simpl in *; rewrite orb_true_r in *; discriminate.
Qed.

Lemma updateUserStatus_effect : forall uid s w,
  db (snd (updateUserStatus uid s w)) = db w \/
  exists st cur,
    TenantStatusEnum s = Some st /\
    find (fun u => TenantUser.id u =? uid) (tenant_users (db w)) = Some cur /\
    db (snd (updateUserStatus uid s w)) =
      replace_tenant_users
        (map (status_update uid st (clock w)) (tenant_users (db w))) (db w).
Proof.
  intros uid s w. unfold updateUserStatus.
  unfold_svc. simpl. cases; tidy; try (left; reflexivity).
  all: right; eexists; eexists; repeat split; try eassumption; try reflexivity.
Qed.

Lemma deleteUser_effect : forall uid w,
  db (snd (deleteUser uid w)) = db w \/
  exists cur,
    find (fun u => TenantUser.id u =? uid) (tenant_users (db w)) = Some cur /\
    (TenantUser.role cur = Owner ->
     length (filter (is_owner_of (TenantUser.tenant_id cur)) (tenant_users (db w)))
     <> 1) /\
    db (snd (deleteUser uid w)) =
      replace_tenant_users
        (filter (fun r => negb (TenantUser.id r =? uid)) (tenant_users (db w)))
        (db w).
Proof.
  intros uid w. unfold deleteUser.
  unfold_svc. simpl. cases; tidy; try (left; reflexivity).
  all: right; eexists; repeat split; try eassumption; try reflexivity.
  - intros _. apply Nat.eqb_neq. assumption.
  - intros Hc. rewrite Hc in *. discriminate.
Qed.

Lemma discard_snd : forall (A : Type) (m : M A) (w : World),
  snd (discard m w) = snd (m w).
Proof.
  intros A m w. unfold discard, bind, ret.
  destruct (m w) as [[a|e] w1]; reflexivity.
Qed.

Lemma discard_throw : forall (A : Type) (m : M A) (w : World) (e : Exn),
  fst (discard m w) = Throw e <-> fst (m w) = Throw e.
Proof.
  intros A m w e. unfold discard, bind, ret.
  destruct (m w) as [[a|e'] w1]; simpl; split; intros H; congruence.
Qed.













Ltac trace_done :=
  simpl; split;
  [ repeat (constructor; simpl);
    try reflexivity;
    try (intros; discriminate);
    try (eexists; reflexivity);
    try (intros _; repeat split; try reflexivity; eexists; reflexivity)
  | unfold transactions_opened; simpl; lia ].

(** C3 (amended).  Started outside a transaction, each of the nine
    business-rule operations opens at most one transaction and makes every
    write inside it.  Every read is inside it too, except the reads of
    [tenant_users] that [createUser] makes in [enforceBusinessRules]
    before its transaction begins.  No operation sets the session tenant
    scope: every table access runs with the scope the session had when the
    operation started, which is the empty scope on a fresh session. *)
Theorem operations_transaction_and_scope : forall op w,
  in_tx w = false ->
  Forall (discipline op (current_tenant_id w)) (events_of op w) /\
  transactions_opened (events_of op w) <= 1.
Proof.
  intros op w Htx. destruct w; simpl in Htx; subst. unfold events_of.
  destruct op; simpl.
  - unfold createUser, enforceBusinessRules. unfold_svc. simpl.
    cases; trace_done.
  - unfold updateUserRole, enforceOwnershipRules. unfold_svc. simpl.
    cases; trace_done.
  - unfold updateUserStatus. unfold_svc. simpl. cases; trace_done.
  - unfold deleteUser. unfold_svc. simpl. cases; trace_done.
  - unfold createTenant. unfold_svc. simpl. cases; trace_done.
  - unfold createInvitation. unfold_svc. simpl. cases; trace_done.
  - unfold acceptInvitation. unfold_svc. simpl. cases; trace_done.
  - unfold revokeInvitation. unfold_svc. simpl. cases; trace_done.
  - unfold deleteTenant. unfold_svc. simpl. cases; trace_done.
Qed.

(* ------------------------------------------------------------------ *)
(** ** Failure leaves the tables as they were *)

Lemma atomic_transaction : forall (A : Type) (cb : M A), atomic (transaction cb).
Proof.
  intros A cb w e w' H. unfold transaction in H.
  destruct (cb (set_in_tx true (log EvBegin w))) as [[a|e1] w1];
    inversion H; subst; reflexivity.
Qed.

Lemma atomic_bind : forall (A B : Type) (m : M A) (k : A -> M B),
  readonly m -> (forall a, atomic (k a)) -> atomic (bind m k).
Proof.
  intros A B m k Hm Hk w e w' H. unfold bind in H.
  pose proof (Hm w) as Hdb. destruct (m w) as [[a|e1] w1]; simpl in Hdb.
  - rewrite <- Hdb. eapply Hk. exact H.
  - inversion H; subst. exact Hdb.
Qed.

Lemma atomic_discard : forall (A : Type) (m : M A), atomic m -> atomic (discard m).
Proof.
  intros A m Hm w e w' H. unfold discard, bind, ret in H.
  destruct (m w) as [[a|e1] w1] eqn:E; inversion H; subst.
  eapply Hm. exact E.
Qed.

Lemma readonly_liftO : forall (A : Type) (o : Outcome A), readonly (liftO o).
Proof. intros A o w. reflexivity. Qed.

Lemma readonly_bind : forall (A B : Type) (m : M A) (k : A -> M B),
  readonly m -> (forall a, readonly (k a)) -> readonly (bind m k).
Proof.
  intros A B m k Hm Hk w. unfold bind.
  pose proof (Hm w) as Hdb. destruct (m w) as [[a|e1] w1]; simpl in *.
  - rewrite Hk. exact Hdb.
  - exact Hdb.
Qed.

Lemma readonly_findFirst : forall where_, readonly (tenant_users_findFirst where_).
Proof. intros where_ w. reflexivity. Qed.

Lemma readonly_ret : forall (A : Type) (a : A), readonly (ret a).
Proof. intros A a w. reflexivity. Qed.

Lemma readonly_throw : forall (A : Type) (e : Exn), readonly (@throw A e).
Proof. intros A e w. reflexivity. Qed.

Lemma readonly_enforceBusinessRules : forall v, readonly (enforceBusinessRules v).
Proof.
  intros v. unfold enforceBusinessRules.
  apply readonly_bind.
  - destruct (TenantRole_eqb (UserData.role v) Owner); [|apply readonly_ret].
    apply readonly_bind; [apply readonly_findFirst|].
    intros [u|]; [apply readonly_throw | apply readonly_ret].
  - intros _. apply readonly_bind; [apply readonly_findFirst|].
    intros [u|]; [apply readonly_throw|].
    apply readonly_bind; [apply readonly_findFirst|].
    intros [u|]; [apply readonly_throw | apply readonly_ret].
Qed.


(* ------------------------------------------------------------------ *)
(** ** Lookups *)

Lemma find_unique : forall (A : Type) (p : A -> bool) (l : list A) (m : A),
  In m l -> p m = true -> (forall u, In u l -> p u = true -> u = m) ->
  find p l = Some m.
Proof.
  intros A p l m. induction l as [|a l IH]; intros Hin Hp Huniq; [contradiction|].
  simpl. destruct (p a) eqn:Ea.
  - f_equal. apply Huniq; [left; reflexivity | exact Ea].
  - destruct Hin as [->|Hin]; [congruence|].
    apply IH; [exact Hin | exact Hp |].
    intros u Hu. apply Huniq. right. exact Hu.
Qed.

Lemma find_all_false : forall (A : Type) (p : A -> bool) (l : list A),
  (forall u, In u l -> p u = false) -> find p l = None.
Proof.
  intros A p l H. induction l as [|a l IH]; [reflexivity|]. simpl.
  rewrite (H a (or_introl eq_refl)). apply IH. intros u Hu. apply H. right. exact Hu.
Qed.


Lemma filter_all_false : forall (A : Type) (p : A -> bool) (l : list A),
  (forall u, In u l -> p u = false) -> filter p l = [].
Proof.
  intros A p l H. induction l as [|a l IH]; [reflexivity|]. simpl.
  rewrite (H a (or_introl eq_refl)). apply IH. intros u Hu. apply H. right. exact Hu.
Qed.

Lemma key_absent : forall (A : Type) (key : A -> string) (k : string) (l : list A),
  ~ In k (map key l) -> forall u, In u l -> (key u =? k) = false.
Proof.
  intros A key k l H u Hu. apply String.eqb_neq. intros E. apply H.
  rewrite <- E. apply in_map. exact Hu.
Qed.


Lemma TenantSchema_slug : forall d v,
  TenantSchema d = Ok v -> TenantData.slug v = TenantInput.slug d.
Proof.
  intros d v. unfold TenantSchema. cases; intros H; inversion H; reflexivity.
Qed.


(* ------------------------------------------------------------------ *)
(** ** Results *)

(** C2.  Whatever the callback does and however it ends, by returning or
    by throwing, after [withTenantContext tenantId callback] the session
    setting [app.current_tenant_id] is the empty string; the callback's
    outcome is handed back unchanged, and a query issued next on the
    session runs with an empty scope. *)
Theorem withTenantContext_resets_scope :
  forall (A : Type) (tenantId : string) (callback : M A) (w : World),
    let entered := log (EvSetConfig tenantId) (set_current_tenant_id tenantId w) in
    let after := snd (Gateway.withTenantContext tenantId callback w) in
    fst (Gateway.withTenantContext tenantId callback w) = fst (callback entered) /\
    current_tenant_id after = "" /\
    forall where_,
      hd_error (trace (snd (tenant_users_findFirst where_ after)))
      = Some (EvAccess T_tenant_users false (in_tx after) "").
Proof.
  intros A tenantId callback w entered after. subst entered after.
  unfold Gateway.withTenantContext, Gateway.executeRaw_set_config, try_finally, bind.
  simpl. destruct (callback _) as [r w1]. simpl.
  repeat split; reflexivity.
Qed.

(** C4.  The permission table is keyed by "admin", "user" and "viewer":
    the roles owner and member, which the validation layer and the
    services use, are not in it and get the empty permission list, while
    the string "user", which is no role, gets the self-service list. *)
Theorem getRolePermissions_owner_and_member_empty :
  Middleware.getRolePermissions (role_name Owner) = [] /\
  Middleware.getRolePermissions (role_name Member) = [] /\
  Middleware.getRolePermissions (role_name Admin) <> [] /\
  Middleware.getRolePermissions (role_name Viewer) = ["tenant:read"; "user:read"] /\
  Middleware.getRolePermissions "user" = ["tenant:read"; "user:read"; "settings:read"] /\
  TenantRoleEnum "user" = None.
Proof. repeat split; try reflexivity. discriminate. Qed.


(** C9.  [getTenantContext] looks the caller up by tenant and identity
    alone: for a caller whose only membership in the resolved tenant is
    not active it still returns the full context, with the permissions of
    that membership's role, while [validateTenantAccess] returns null for
    the same tenant and identity. *)
Theorem getTenantContext_ignores_status :
  forall request options w slug tenant uid m,
    Middleware.extractTenantSlug request (Middleware.merge_options options)
      = Some slug ->
    slug <> "" ->
    find (fun x => Tenant.slug x =? slug) (tenants (db w)) = Some tenant ->
    auth_userId w = Some uid -> uid <> "" ->
    In m (tenant_users (db w)) ->
    TenantUser.tenant_id m = Tenant.id tenant ->
    TenantUser.clerk_user_id m = uid ->
    (forall u, In u (tenant_users (db w)) ->
               TenantUser.tenant_id u = Tenant.id tenant ->
               TenantUser.clerk_user_id u = uid -> u = m) ->
    TenantUser.status m <> Active ->
    fst (Middleware.getTenantContext request options w)
      = Ok (Some (Middleware.mkContext tenant m
                    (Middleware.getRolePermissions (role_name (TenantUser.role m)))))
    /\ fst (Middleware.validateTenantAccess (Tenant.id tenant) uid w) = Ok None.
Proof.
  intros request options w slug tenant uid m Hslug Hs Htenant Hauth Hu Hin Ht Hc
    Huniq Hstatus.
  apply String.eqb_neq in Hs. apply String.eqb_neq in Hu.
  split.
  - unfold Middleware.getTenantContext. rewrite Hslug.
    unfold Middleware.truthy, Middleware.or_null. rewrite Hs. simpl.
    unfold Middleware.auth. unfold_svc. simpl. rewrite !Hs. simpl.
    rewrite Htenant. simpl.
    rewrite Hauth, Hu. simpl.
    rewrite (@find_unique _ _ _ m Hin).
    + reflexivity.
    + rewrite Ht, Hc, !String.eqb_refl. reflexivity.
    + intros u Hin' Hp. apply andb_true_iff in Hp. destruct Hp as [H1 H2].
      apply String.eqb_eq in H1. apply String.eqb_eq in H2. apply Huniq; assumption.
  - unfold Middleware.validateTenantAccess. unfold_svc. simpl.
    rewrite find_all_false; [reflexivity|].
    intros u Hin'.
    destruct ((TenantUser.tenant_id u =? Tenant.id tenant)
              && (TenantUser.clerk_user_id u =? uid)) eqn:E; [|reflexivity].
    apply andb_true_iff in E. destruct E as [H1 H2].
    apply String.eqb_eq in H1. apply String.eqb_eq in H2.
    rewrite (Huniq u Hin' H1 H2). simpl.
    destruct (TenantUser.status m); simpl; congruence.
Qed.

(** C10.  [suspendTenant] and [activateTenant] are not idempotent.  On a
    missing tenant each fails with TenantNotFoundError; on a tenant
    already in the target status each fails with a
    TenantBusinessRuleError; in both cases no table changes.  Otherwise
    each succeeds and stores the tenant with the target status. *)
Theorem suspend_activate_not_idempotent :
  forall (tenantId : string) (w : World),
    let existing := find (fun x => Tenant.id x =? tenantId) (tenants (db w)) in
    let outcome (op : string -> M Tenant.t) (target : TenantStatus) (msg : string) :=
      match existing with
      | None =>
          fst (op tenantId w) = Throw (TenantNotFoundError "Tenant not found")
          /\ db (snd (op tenantId w)) = db w
      | Some t =>
          if TenantStatus_eqb (Tenant.status t) target then
            fst (op tenantId w) = Throw (TenantBusinessRuleError msg)
            /\ db (snd (op tenantId w)) = db w
          else
            fst (op tenantId w)
              = Ok (Tenant_touch (clock w) (Tenant_with_status target t))
            /\ db (snd (op tenantId w))
               = replace_tenants
                   (map (fun r => if Tenant.id r =? tenantId
                                  then Tenant_touch (clock w)
                                         (Tenant_with_status target r)
                                  else r)
                        (tenants (db w))) (db w)
      end in
    outcome suspendTenant Suspended "Tenant is already suspended" /\
    outcome activateTenant Active "Tenant is already active".
Proof.
  intros tenantId w existing outcome. subst outcome existing. simpl.
  unfold suspendTenant, activateTenant. unfold_svc. simpl.
  destruct (find (fun x => Tenant.id x =? tenantId) (tenants (db w))) as [t|] eqn:E;
    simpl.
  - split.
    + destruct (TenantStatus_eqb (Tenant.status t) Suspended); simpl;
        [|rewrite E; simpl]; split; reflexivity.
    + destruct (TenantStatus_eqb (Tenant.status t) Active); simpl;
        [|rewrite E; simpl]; split; reflexivity.
  - repeat split; reflexivity.
Qed.

(** C7.  Whenever one of the business-rule operations ends with an error,
    of whatever kind, the tenants, memberships and invitations are exactly
    what they were when the operation started. *)
Theorem failed_operation_changes_nothing :
  forall (op : Operation) (w : World) (e : Exn) (w' : World),
    exec op w = (Throw e, w') -> db w' = db w.
Proof.
  intros op. change (atomic (exec op)).
  destruct op; simpl; apply atomic_discard.
  - unfold createUser. apply atomic_bind; [apply readonly_liftO|]. intros v.
    apply atomic_bind; [apply readonly_enforceBusinessRules|]. intros _.
    apply atomic_transaction.
  - unfold updateUserRole. apply atomic_bind; [apply readonly_liftO|]. intros v.
    apply atomic_transaction.
  - unfold updateUserStatus. apply atomic_bind; [apply readonly_liftO|]. intros v.
    apply atomic_transaction.
  - apply atomic_transaction.
  - unfold createTenant. apply atomic_bind; [apply readonly_liftO|]. intros v.
    apply atomic_transaction.
  - unfold createInvitation.
    apply atomic_bind; [intros w; reflexivity|]. intros token.
    apply atomic_bind; [intros w; reflexivity|]. intros now.
    apply atomic_bind.
    + unfold validateTenantInvitation.
      apply readonly_bind; [intros w; reflexivity|]. intros n. apply readonly_liftO.
    + intros v. apply atomic_transaction.
  - apply atomic_transaction.
  - apply atomic_transaction.
  - apply atomic_transaction.
Qed.


(* ------------------------------------------------------------------ *)
(** ** Further properties of the services *)

Ltac unfold_more :=
  unfold tenant_users_findMany_desc, tenant_invitations_findMany_desc,
    tenant_invitations_findMany, tenant_invitations_count,
    tenant_invitations_updateMany, tenant_invitations_delete in *;
  unfold_svc.

Lemma same_identity_role_update : forall tid cid uid role now x,
  same_identity tid cid (role_update uid role now x) = same_identity tid cid x.
Proof.
  intros. unfold role_update. destruct (TenantUser.id x =? uid); reflexivity.
Qed.

Lemma same_identity_status_update : forall tid cid uid st now x,
  same_identity tid cid (status_update uid st now x) = same_identity tid cid x.
Proof.
  intros. unfold status_update. destruct (TenantUser.id x =? uid); reflexivity.
Qed.

Lemma same_email_role_update : forall tid em uid role now x,
  same_email tid em (role_update uid role now x) = same_email tid em x.
Proof.
  intros. unfold role_update. destruct (TenantUser.id x =? uid); reflexivity.
Qed.

Lemma same_email_status_update : forall tid em uid st now x,
  same_email tid em (status_update uid st now x) = same_email tid em x.
Proof.
  intros. unfold status_update. destruct (TenantUser.id x =? uid); reflexivity.
Qed.

(** What [createUser] has checked when it inserts. *)
Lemma createUser_checked : forall d w,
  db (snd (createUser d w)) = db w \/
  exists v,
    TenantUserSchema d = Ok v /\
    find (same_identity (UserData.tenantId v) (UserData.clerkUserId v))
         (tenant_users (db w)) = None /\
    find (same_email (UserData.tenantId v) (UserData.email v))
         (tenant_users (db w)) = None /\
    db (snd (createUser d w)) =
      replace_tenant_users (tenant_users (db w) ++ [new_user_row v w]) (db w).
Proof.
  intros d w. unfold createUser, enforceBusinessRules.
  unfold_svc. simpl. cases; tidy; try (left; reflexivity).
  all: right; eexists; repeat split; try eassumption; try reflexivity.
Qed.

Lemma unique_after_append :
  forall (p : TenantUser.t -> bool) (l : list TenantUser.t) (row : TenantUser.t),
  length (filter p l) <= 1 ->
  (p row = true -> find p l = None) ->
  length (filter p (l ++ [row])) <= 1.
Proof.
  intros p l row Hle Hnone. rewrite count_app1.
  destruct (p row) eqn:E; [|lia].
  rewrite (find_none_count _ _ (Hnone eq_refl)). lia.
Qed.

Lemma membership_step_unique : forall op w,
  membership_op op = true ->
  identity_unique (db w) -> email_unique (db w) ->
  identity_unique (db (snd (exec op w))) /\ email_unique (db (snd (exec op w))).
Proof.
  intros op w Hop Hid Hem. unfold identity_unique, email_unique in *.
  destruct op; try discriminate; simpl; rewrite discard_snd.
  - destruct (createUser_checked userData w) as [E|[v [Hv [Hi [He E]]]]];
      rewrite E; [split; assumption|]. simpl. split.
    + intros tid cid. apply unique_after_append; [apply Hid|].
      unfold same_identity at 1. simpl. intros Hp.
      apply andb_true_iff in Hp. destruct Hp as [H1 H2].
      apply String.eqb_eq in H1. apply String.eqb_eq in H2. subst. exact Hi.
    + intros tid em. apply unique_after_append; [apply Hem|].
      unfold same_email at 1. simpl. intros Hp.
      apply andb_true_iff in Hp. destruct Hp as [H1 H2].
      apply String.eqb_eq in H1. apply String.eqb_eq in H2. subst. exact He.
  - destruct (updateUserRole_effect userId newRole w)
      as [E|[role [cur [_ [_ [_ [_ E]]]]]]]; rewrite E; [split; assumption|].
    simpl. split.
    + intros tid cid. eapply Nat.le_trans; [|apply (Hid tid cid)].
      apply count_map_le. intros x _. rewrite same_identity_role_update. tauto.
    + intros tid em. eapply Nat.le_trans; [|apply (Hem tid em)].
      apply count_map_le. intros x _. rewrite same_email_role_update. tauto.
  - destruct (updateUserStatus_effect userId newStatus w)
      as [E|[st [cur [_ [_ E]]]]]; rewrite E; [split; assumption|].
    simpl. split.
    + intros tid cid. eapply Nat.le_trans; [|apply (Hid tid cid)].
      apply count_map_le. intros x _. rewrite same_identity_status_update. tauto.
    + intros tid em. eapply Nat.le_trans; [|apply (Hem tid em)].
      apply count_map_le. intros x _. rewrite same_email_status_update. tauto.
  - destruct (deleteUser_effect userId w) as [E|[cur [_ [_ E]]]];
      rewrite E; [split; assumption|]. simpl. split.
    + intros tid cid. eapply Nat.le_trans; [|apply (Hid tid cid)].
      apply count_filter_le.
    + intros tid em. eapply Nat.le_trans; [|apply (Hem tid em)].
      apply count_filter_le.
Qed.

(** X1.  Over every sequence of createUser, updateUserRole,
    updateUserStatus and deleteUser, a tenant never gets two memberships
    with the same identity, nor two with the same email: both uniqueness
    properties are kept from any state that has them. *)
Theorem memberships_stay_unique :
  forall (ops : list Operation) (w : World),
    forallb membership_op ops = true ->
    identity_unique (db w) -> email_unique (db w) ->
    identity_unique (db (run ops w)) /\ email_unique (db (run ops w)).
Proof.
  induction ops as [|op ops IH]; intros w Hops Hid Hem; simpl.
  - split; assumption.
  - simpl in Hops. apply andb_true_iff in Hops. destruct Hops as [Hop Hops].
    destruct (membership_step_unique op w Hop Hid Hem) as [Hid' Hem'].
    apply IH; assumption.
Qed.


(** *** Invitations *)

Lemma find_map_key :
  forall (A : Type) (key : A -> string) (k : string) (g : A -> A) (l : list A),
  (forall x, key (g x) = key x) ->
  find (fun r => key r =? k) (map g l) = option_map g (find (fun r => key r =? k) l).
Proof.
  intros A key k g l Hg. induction l as [|a l IH]; [reflexivity|]. simpl.
  rewrite Hg. destruct (key a =? k); [reflexivity | exact IH].
Qed.

Lemma createInvitation_effect : forall d w,
  db (snd (createInvitation d w)) = db w \/
  exists row,
    find (same_pending (TenantInvitation.tenant_id row) (TenantInvitation.email row))
         (tenant_invitations (db w)) = None /\
    db (snd (createInvitation d w)) =
      replace_tenant_invitations (tenant_invitations (db w) ++ [row]) (db w).
Proof.
  intros d w. unfold createInvitation. unfold_svc. simpl.
  cases; tidy; try (left; reflexivity).
  all: right; eexists; split; [|reflexivity]; simpl; assumption.
Qed.

Lemma acceptInvitation_effect : forall id caller w,
  db (snd (acceptInvitation id caller w)) = db w \/
  exists inv,
    find (fun i => TenantInvitation.id i =? id) (tenant_invitations (db w)) = Some inv /\
    TenantInvitation.status inv = Pending /\
    (TenantInvitation.expires_at inv <? clock w)%Z = false /\
    find (same_identity (TenantInvitation.tenant_id inv) caller)
         (tenant_users (db w)) = None /\
    (TenantInvitation.role inv = Owner ->
     find (is_owner_of (TenantInvitation.tenant_id inv)) (tenant_users (db w)) = None) /\
    db (snd (acceptInvitation id caller w)) =
      mkDatabase (tenants (db w))
        (tenant_users (db w) ++ [accepted_user_row inv caller w])
        (map (invitation_update id (accept_fields (clock w)) (clock w))
             (tenant_invitations (db w))).
Proof.
  intros id caller w. unfold acceptInvitation. unfold_svc. simpl.
  cases; tidy; try (left; reflexivity); try congruence.
  all: right; eexists; repeat split; try eassumption; try reflexivity.
  all: try (apply InvitationStatus_eqb_eq; apply negb_false_iff; assumption).
  all: try (intros Hr; rewrite Hr in *; simpl in *; discriminate).
  all: try (intros _; assumption).
Qed.

Lemma revokeInvitation_effect : forall id w,
  db (snd (revokeInvitation id w)) = db w \/
  exists inv,
    find (fun i => TenantInvitation.id i =? id) (tenant_invitations (db w)) = Some inv /\
    TenantInvitation.status inv = Pending /\
    db (snd (revokeInvitation id w)) =
      replace_tenant_invitations
        (map (invitation_update id (TenantInvitation.with_status Revoked) (clock w))
             (tenant_invitations (db w))) (db w).
Proof.
  intros id w. unfold revokeInvitation. unfold_svc. simpl.
  cases; tidy; try (left; reflexivity); try congruence.
  all: right; eexists; repeat split; try eassumption; try reflexivity.
  all: apply InvitationStatus_eqb_eq; apply negb_false_iff; assumption.
Qed.


(** The effect of every step on the three tables. *)
Lemma createTenant_effect : forall d o e w,
  db (snd (createTenant d o e w)) = db w \/
  exists v row urow,
    TenantSchema d = Ok v /\
    find (fun x => Tenant.slug x =? TenantData.slug v) (tenants (db w)) = None /\
    existsb (fun x => Tenant.id x =? Tenant.id row) (tenants (db w)) = false /\
    Tenant.slug row = TenantData.slug v /\
    db (snd (createTenant d o e w)) =
      mkDatabase (tenants (db w) ++ [row]) (tenant_users (db w) ++ [urow])
                 (tenant_invitations (db w)).
Proof.
  intros d o e w. unfold createTenant. unfold_svc. simpl.
  cases; tidy; try (left; reflexivity).
  right. eexists. eexists. eexists. repeat split; try eassumption; reflexivity.
Qed.

Lemma deleteTenant_effect : forall t w,
  db (snd (deleteTenant t w)) = db w \/
  (length (filter (fun u => TenantUser.tenant_id u =? t) (tenant_users (db w))) = 0 /\
   db (snd (deleteTenant t w)) =
     mkDatabase
       (filter (fun r => negb (Tenant.id r =? t)) (tenants (db w)))
       (filter (fun u => negb (TenantUser.tenant_id u =? t)) (tenant_users (db w)))
       (filter (fun i => negb (TenantInvitation.tenant_id i =? t))
               (tenant_invitations (db w)))).
Proof.
  intros t w. unfold deleteTenant. unfold_svc. simpl.
  cases; tidy; try (left; reflexivity); try congruence.
  right. split; [|reflexivity].
  destruct (length _); [reflexivity | discriminate].
Qed.

Lemma TenantSchema_slug_ok : forall d v,
  TenantSchema d = Ok v -> slug_ok (TenantData.slug v) = true.
Proof.
  intros d v Hv. unfold slug_ok. rewrite (TenantSchema_slug _ Hv).
  unfold TenantSchema in Hv.
  destruct ((2 <=? String.length (TenantInput.slug d))%nat
            && (String.length (TenantInput.slug d) <=? 50)%nat
            && slug_regex (TenantInput.slug d)); [reflexivity|].
  simpl in Hv. discriminate Hv.
Qed.

Lemma updateTenant_effect : forall t d w,
  db (snd (updateTenant t d w)) = db w \/
  exists v cur,
    TenantSchema d = Ok v /\
    find (fun x => Tenant.id x =? t) (tenants (db w)) = Some cur /\
    (TenantData.slug v <> Tenant.slug cur ->
     find (fun x => Tenant.slug x =? TenantData.slug v) (tenants (db w)) = None) /\
    db (snd (updateTenant t d w)) =
      replace_tenants
        (map (fun r => if Tenant.id r =? t
                       then Tenant_touch (clock w) (Tenant_with_data v r) else r)
             (tenants (db w))) (db w).
Proof.
  intros t d w. unfold updateTenant. unfold_svc. simpl.
  cases; tidy; try (left; reflexivity); try congruence.
  all: right; eexists; eexists; repeat split; try eassumption; try reflexivity.
  - intros _. assumption.
  - intros Hne. exfalso. apply andb_false_iff in Heqb.
    destruct Heqb as [Hb|Hb]; apply negb_false_iff in Hb; apply String.eqb_eq in Hb.
    + match goal with H : TenantSchema d = Ok _ |- _ =>
        apply TenantSchema_slug_ok in H; rewrite Hb in H; discriminate H end.
    + contradiction.
Qed.

Lemma status_change_effect : forall t w,
  (db (snd (suspendTenant t w)) = db w \/
   db (snd (suspendTenant t w)) =
     replace_tenants
       (map (fun r => if Tenant.id r =? t
                      then Tenant_touch (clock w) (Tenant_with_status Suspended r)
                      else r) (tenants (db w))) (db w)) /\
  (db (snd (activateTenant t w)) = db w \/
   db (snd (activateTenant t w)) =
     replace_tenants
       (map (fun r => if Tenant.id r =? t
                      then Tenant_touch (clock w) (Tenant_with_status Active r)
                      else r) (tenants (db w))) (db w)).
Proof.
  intros t w. unfold suspendTenant, activateTenant. unfold_svc. simpl.
  split; cases; tidy; try (left; reflexivity); try congruence; right; reflexivity.
Qed.

Lemma cleanup_effect : forall w,
  db (snd (cleanupExpiredInvitations w)) =
    replace_tenant_invitations
      (map (fun r => if pending_expired (clock w) r
                     then TenantInvitation.touch (clock w)
                            (TenantInvitation.with_status Expired r)
                     else r) (tenant_invitations (db w))) (db w).
Proof. intros w. reflexivity. Qed.

Lemma same_pending_after_update : forall tid em id f now st x,
  (forall i, TenantInvitation.status (f i) = st) -> st <> Pending ->
  (forall i, TenantInvitation.tenant_id (f i) = TenantInvitation.tenant_id i) ->
  (forall i, TenantInvitation.email (f i) = TenantInvitation.email i) ->
  same_pending tid em (invitation_update id f now x) = true ->
  same_pending tid em x = true.
Proof.
  intros tid em id f now st x Hst Hne Ht He. unfold invitation_update.
  destruct (TenantInvitation.id x =? id); [|tauto].
  unfold same_pending. simpl. rewrite Hst.
  destruct st; try contradiction; simpl; rewrite andb_false_r; discriminate.
Qed.

Lemma step_keeps_pending_unique : forall s w,
  pending_unique (db w) -> pending_unique (db (step s w)).
Proof.
  intros s w Hp. unfold pending_unique in *.
  destruct s as [op|t d|t|t| |now]; unfold step.
  - destruct op; simpl; rewrite discard_snd.
    + destruct (createUser_effect userData w) as [E|[v [_ [_ [_ E]]]]];
        rewrite E; exact Hp.
    + destruct (updateUserRole_effect userId newRole w)
        as [E|[role [cur [_ [_ [_ [_ E]]]]]]]; rewrite E; exact Hp.
    + destruct (updateUserStatus_effect userId newStatus w)
        as [E|[st [cur [_ [_ E]]]]]; rewrite E; exact Hp.
    + destruct (deleteUser_effect userId w) as [E|[cur [_ [_ E]]]];
        rewrite E; exact Hp.
    + destruct (createTenant_effect tenantData ownerClerkUserId ownerEmail w)
        as [E|[v [row [urow [_ [_ [_ [_ E]]]]]]]]; rewrite E; exact Hp.
    + destruct (createInvitation_effect invitationData w) as [E|[row [Hnone E]]];
        rewrite E; [exact Hp|]. simpl. intros tid em.
        rewrite count_app1. destruct (same_pending tid em row) eqn:Es.
        * unfold same_pending in Es. apply andb_true_iff in Es.
          destruct Es as [Es _]. apply andb_true_iff in Es. destruct Es as [E1 E2].
          apply String.eqb_eq in E1. apply String.eqb_eq in E2. subst.
          rewrite (find_none_count _ _ Hnone). lia.
        * specialize (Hp tid em). lia.
    + destruct (acceptInvitation_effect invitationId clerkUserId w)
        as [E|[inv [_ [_ [_ [_ [_ E]]]]]]]; rewrite E; [exact Hp|]. simpl.
      intros tid em. eapply Nat.le_trans; [|apply (Hp tid em)].
      apply count_map_le. intros x _.
      apply same_pending_after_update with (st := Accepted);
        try reflexivity; discriminate.
    + destruct (revokeInvitation_effect invitationId w) as [E|[inv [_ [_ E]]]];
        rewrite E; [exact Hp|]. simpl.
      intros tid em. eapply Nat.le_trans; [|apply (Hp tid em)].
      apply count_map_le. intros x _.
      apply same_pending_after_update with (st := Revoked);
        try reflexivity; discriminate.
    + destruct (deleteTenant_effect tenantId w) as [E|[_ E]];
        rewrite E; [exact Hp|]. simpl.
      intros tid em. eapply Nat.le_trans; [|apply (Hp tid em)].
      apply count_filter_le.
  - destruct (updateTenant_effect t d w) as [E|[v [cur [_ [_ [_ E]]]]]];
      rewrite E; exact Hp.
  - destruct (status_change_effect t w) as [[E|E] _]; rewrite E; exact Hp.
  - destruct (status_change_effect t w) as [_ [E|E]]; rewrite E; exact Hp.
  - rewrite cleanup_effect. simpl.
    intros tid em. eapply Nat.le_trans; [|apply (Hp tid em)].
    apply count_map_le. intros x _.
    destruct (pending_expired (clock w) x); [|tauto].
    unfold same_pending. simpl. rewrite andb_false_r. discriminate.
  - exact Hp.
Qed.

(** X3.  Whatever the services do to the store, in whatever order and at
    whatever times (the nine business operations, tenant updates,
    suspensions and activations, clean-ups of expired invitations, the
    clock moving), a tenant never holds two pending invitations for the
    same email: the property is kept from any state that has it. *)
Theorem pending_invitations_stay_unique :
  forall (l : list Step) (w : World),
    pending_unique (db w) -> pending_unique (db (steps l w)).
Proof.
  induction l as [|s l IH]; intros w Hp; simpl; [exact Hp|].
  apply IH. apply step_keeps_pending_unique. exact Hp.
Qed.


(** *** Tenants *)

Lemma find_none_existsb : forall (A : Type) (p : A -> bool) (l : list A),
  find p l = None -> existsb p l = false.
Proof.
  intros A p l H. induction l as [|a l IH]; [reflexivity|]. simpl in *.
  destruct (p a); [discriminate | apply IH; exact H].
Qed.

Lemma slugs_after_rekey :
  forall (l : list Tenant.t) (t s' : string) (g : Tenant.t -> Tenant.t),
  (forall x, Tenant.slug (g x) = s') ->
  NoDup (map Tenant.id l) -> NoDup (map Tenant.slug l) ->
  ~ In s' (map Tenant.slug l) ->
  NoDup (map Tenant.slug (map (fun r => if Tenant.id r =? t then g r else r) l)).
Proof.
  intros l t s' g Hg. induction l as [|a l IH]; intros Hid Hslug Hnew; simpl;
    [constructor|].
  simpl in Hid, Hslug, Hnew.
  inversion Hid as [|? ? Hida Hid']; subst.
  inversion Hslug as [|? ? Hsa Hslug']; subst.
  destruct (Tenant.id a =? t) eqn:E.
  - apply String.eqb_eq in E. rewrite Hg.
    assert (Hsame : map (fun r => if Tenant.id r =? t then g r else r) l = l).
    { rewrite <- (map_id l) at 2. apply map_ext_in. intros x Hx.
      rewrite (key_absent Tenant.id t l); [reflexivity | congruence | exact Hx]. }
    rewrite Hsame. constructor; [|exact Hslug'].
    intros Hin. apply Hnew. right. exact Hin.
  - constructor;
      [|apply IH; [exact Hid' | exact Hslug' |
                   intros Hin; apply Hnew; right; exact Hin]].
    intros Hin. apply in_map_iff in Hin. destruct Hin as [y [Hy Hin]].
    apply in_map_iff in Hin. destruct Hin as [x [Hx Hin]]. subst y.
    destruct (Tenant.id x =? t).
    + rewrite Hg in Hy. apply Hnew. left. symmetry. exact Hy.
    + apply Hsa. rewrite <- Hy. apply in_map. exact Hin.
Qed.

Lemma step_keeps_tenants_well_formed : forall s w,
  tenants_well_formed (db w) -> tenants_well_formed (db (step s w)).
Proof.
  intros s w Hwf. pose proof Hwf as [Hid [Hslug Hok]].
  unfold tenants_well_formed.
  destruct s as [op|t d|t|t| |now]; unfold step.
  - destruct op; simpl; rewrite discard_snd.
    + destruct (createUser_effect userData w) as [E|[v [_ [_ [_ E]]]]];
        rewrite E; exact Hwf.
    + destruct (updateUserRole_effect userId newRole w)
        as [E|[role [cur [_ [_ [_ [_ E]]]]]]]; rewrite E; exact Hwf.
    + destruct (updateUserStatus_effect userId newStatus w)
        as [E|[st [cur [_ [_ E]]]]]; rewrite E; exact Hwf.
    + destruct (deleteUser_effect userId w) as [E|[cur [_ [_ E]]]];
        rewrite E; exact Hwf.
    + destruct (createTenant_effect tenantData ownerClerkUserId ownerEmail w)
        as [E|[v [row [urow [Hv [Hnone [Hfresh [Hrow E]]]]]]]];
        rewrite E; [exact Hwf|]. simpl. repeat split.
      * apply keys_app1; assumption.
      * apply keys_app1; [assumption|]. rewrite Hrow.
        apply find_none_existsb. exact Hnone.
      * apply Forall_app. split; [exact Hok|]. constructor; [|constructor].
        rewrite Hrow. eapply TenantSchema_slug_ok. exact Hv.
    + destruct (createInvitation_effect invitationData w) as [E|[row [_ E]]];
        rewrite E; exact Hwf.
    + destruct (acceptInvitation_effect invitationId clerkUserId w)
        as [E|[inv [_ [_ [_ [_ [_ E]]]]]]]; rewrite E; exact Hwf.
    + destruct (revokeInvitation_effect invitationId w) as [E|[inv [_ [_ E]]]];
        rewrite E; exact Hwf.
    + destruct (deleteTenant_effect tenantId w) as [E|[_ E]];
        rewrite E; [exact Hwf|]. simpl. repeat split.
      * apply keys_filter. exact Hid.
      * apply keys_filter. exact Hslug.
      * apply Forall_forall. intros x Hx. apply filter_In in Hx.
        rewrite Forall_forall in Hok. apply Hok. tauto.
  - destruct (updateTenant_effect t d w) as [E|[v [cur [Hv [Hcur [Hfree E]]]]]];
      rewrite E; [exact Hwf|]. simpl.
    pose proof (find_some _ _ Hcur) as [Hin Hc]. apply String.eqb_eq in Hc.
    repeat split.
    + rewrite keys_map; [exact Hid|]. intros x.
      destruct (Tenant.id x =? t); reflexivity.
    + destruct (String.eqb_spec (TenantData.slug v) (Tenant.slug cur)) as [Es|Es].
      * rewrite map_map.
        rewrite (map_ext_in _ Tenant.slug); [exact Hslug|].
        intros x Hx. destruct (Tenant.id x =? t) eqn:Ex; [|reflexivity].
        apply String.eqb_eq in Ex.
        assert (x = cur)
          by (apply (@key_injective _ Tenant.id (tenants (db w)) x cur Hid Hx Hin);
              congruence).
        subst x. simpl. exact Es.
      * apply slugs_after_rekey with (s' := TenantData.slug v);
          try assumption; [reflexivity|].
        intros Hin'. apply in_map_iff in Hin'. destruct Hin' as [x [Hx Hin']].
        pose proof (find_none _ _ (Hfree Es) x Hin') as Hf. simpl in Hf.
        rewrite Hx, String.eqb_refl in Hf. discriminate.
    + apply Forall_forall. intros y Hy. apply in_map_iff in Hy.
      destruct Hy as [x [Hx Hin']]. subst y.
      destruct (Tenant.id x =? t).
      * simpl. eapply TenantSchema_slug_ok. exact Hv.
      * rewrite Forall_forall in Hok. apply Hok. exact Hin'.
  - destruct (status_change_effect t w) as [[E|E] _]; rewrite E; [exact Hwf|].
    simpl. repeat split.
    + rewrite keys_map; [exact Hid|]. intros x.
      destruct (Tenant.id x =? t); reflexivity.
    + rewrite keys_map; [exact Hslug|]. intros x.
      destruct (Tenant.id x =? t); reflexivity.
    + apply Forall_forall. intros y Hy. apply in_map_iff in Hy.
      destruct Hy as [x [Hx Hin']]. subst y. rewrite Forall_forall in Hok.
      destruct (Tenant.id x =? t); simpl; apply Hok; exact Hin'.
  - destruct (status_change_effect t w) as [_ [E|E]]; rewrite E; [exact Hwf|].
    simpl. repeat split.
    + rewrite keys_map; [exact Hid|]. intros x.
      destruct (Tenant.id x =? t); reflexivity.
    + rewrite keys_map; [exact Hslug|]. intros x.
      destruct (Tenant.id x =? t); reflexivity.
    + apply Forall_forall. intros y Hy. apply in_map_iff in Hy.
      destruct Hy as [x [Hx Hin']]. subst y. rewrite Forall_forall in Hok.
      destruct (Tenant.id x =? t); simpl; apply Hok; exact Hin'.
  - rewrite cleanup_effect. exact Hwf.
  - exact Hwf.
Qed.

(** X4.  Whatever the services do to the store, tenants keep unique ids
    and unique slugs, and every stored slug has the schema's format
    (2 to 50 characters among a-z, 0-9 and the hyphen): [createTenant]
    and [updateTenant] refuse a slug another tenant has. *)
Theorem tenant_slugs_stay_unique :
  forall (l : list Step) (w : World),
    tenants_well_formed (db w) -> tenants_well_formed (db (steps l w)).
Proof.
  induction l as [|s l IH]; intros w Hwf; simpl; [exact Hwf|].
  apply IH. apply step_keeps_tenants_well_formed. exact Hwf.
Qed.


(** *** The life of an invitation *)







(** *** Listings *)

Lemma insert_desc_perm : forall (A : Type) (key : A -> Date) (x : A) (l : list A),
  Permutation (x :: l) (insert_desc key x l).
Proof.
  intros A key x l. induction l as [|y tl IH]; simpl; [apply Permutation_refl|].
  destruct (key y <=? key x)%Z; [apply Permutation_refl|].
  eapply Permutation_trans; [apply perm_swap|]. apply perm_skip. exact IH.
Qed.

Lemma orderBy_desc_perm : forall (A : Type) (key : A -> Date) (l : list A),
  Permutation l (orderBy_desc key l).
Proof.
  intros A key l. induction l as [|x tl IH]; simpl; [apply perm_nil|].
  eapply Permutation_trans; [apply perm_skip; exact IH|]. apply insert_desc_perm.
Qed.

Lemma insert_desc_sorted : forall (A : Type) (key : A -> Date) (x : A) (l : list A),
  newest_first key l -> newest_first key (insert_desc key x l).
Proof.
  intros A key x l. unfold newest_first.
  induction l as [|y tl IH]; intros Hs; simpl.
  - constructor; constructor.
  - inversion Hs as [|? ? Htl Hall]; subst.
    destruct (key y <=? key x)%Z eqn:E.
    + apply Z.leb_le in E. constructor; [exact Hs|].
      constructor; [exact E|].
      apply Forall_forall. intros z Hz. rewrite Forall_forall in Hall.
      specialize (Hall z Hz). lia.
    + apply Z.leb_gt in E. constructor; [apply IH; exact Htl|].
      apply Forall_forall. intros z Hz.
      apply (Permutation_in z (Permutation_sym (insert_desc_perm key x tl))) in Hz.
      destruct Hz as [->|Hz]; [lia|].
      rewrite Forall_forall in Hall. apply Hall. exact Hz.
Qed.

Lemma orderBy_desc_sorted : forall (A : Type) (key : A -> Date) (l : list A),
  newest_first key (orderBy_desc key l).
Proof.
  intros A key l. induction l as [|x tl IH]; simpl; [constructor|].
  apply insert_desc_sorted. exact IH.
Qed.

(** X7.  The two membership listings, [getUsersByTenant] of the user
    service and [getTenantUsers] of the tenant service, return the same
    list: exactly the memberships of the given tenant (each as often as it
    is stored, none of another tenant), newest first.  Neither writes. *)
Theorem membership_listings :
  forall (tenantId : string) (w : World),
    getUsersByTenant tenantId w = getTenantUsers tenantId w /\
    exists users,
      fst (getTenantUsers tenantId w) = Ok users /\
      Permutation
        (filter (fun u => TenantUser.tenant_id u =? tenantId) (tenant_users (db w)))
        users /\
      (forall u, In u users ->
                 In u (tenant_users (db w)) /\ TenantUser.tenant_id u = tenantId) /\
      newest_first TenantUser.created_at users /\
      db (snd (getTenantUsers tenantId w)) = db w.
Proof using.
  intros tenantId w. split; [reflexivity|].
  eexists. split; [reflexivity|]. repeat split.
  - apply orderBy_desc_perm.
  - apply (Permutation_in u (Permutation_sym (orderBy_desc_perm _ _))) in H.
    apply filter_In in H. destruct H as [H _]. exact H.
  - apply (Permutation_in u (Permutation_sym (orderBy_desc_perm _ _))) in H.
    apply filter_In in H. destruct H as [_ H]. apply String.eqb_eq. exact H.
  - apply orderBy_desc_sorted.
Qed.


(** *** Expiry *)

Lemma replace_same_invitations : forall d,
  replace_tenant_invitations (tenant_invitations d) d = d.
Proof. intros []. reflexivity. Qed.

Lemma pending_expired_after : forall now x,
  pending_expired now
    (if pending_expired now x
     then TenantInvitation.touch now (TenantInvitation.with_status Expired x)
     else x) = false.
Proof.
  intros now x. destruct (pending_expired now x) eqn:E; [reflexivity | exact E].
Qed.

(** X8.  [cleanupExpiredInvitations] returns the number of invitations
    that are pending and past their expiry, and stores every one of them
    as expired: afterwards no stored invitation is pending and past its
    expiry.  It adds and removes no invitation, leaves every other
    invitation as it was, and touches neither tenants nor memberships.
    Run again at the same time it finds nothing and changes nothing. *)
Theorem cleanup_expires_what_is_due :
  forall w : World,
    let due := pending_expired (clock w) in
    let w' := snd (cleanupExpiredInvitations w) in
    fst (cleanupExpiredInvitations w)
      = Ok (length (filter due (tenant_invitations (db w)))) /\
    (forall i, In i (tenant_invitations (db w')) -> due i = false) /\
    map TenantInvitation.id (tenant_invitations (db w'))
      = map TenantInvitation.id (tenant_invitations (db w)) /\
    (forall i, In i (tenant_invitations (db w)) -> due i = false ->
               In i (tenant_invitations (db w'))) /\
    (forall i, In i (tenant_invitations (db w)) -> due i = true ->
               In (TenantInvitation.touch (clock w)
                     (TenantInvitation.with_status Expired i))
                  (tenant_invitations (db w'))) /\
    tenants (db w') = tenants (db w) /\
    tenant_users (db w') = tenant_users (db w) /\
    fst (cleanupExpiredInvitations w') = Ok 0 /\
    db (snd (cleanupExpiredInvitations w')) = db w'.
Proof.
  intros w due w'. subst due w'.
  assert (Hclock : clock (snd (cleanupExpiredInvitations w)) = clock w) by reflexivity.
  assert (Hnone : forall i,
            In i (tenant_invitations (db (snd (cleanupExpiredInvitations w)))) ->
            pending_expired (clock w) i = false).
  { intros i Hi. rewrite cleanup_effect in Hi. simpl in Hi.
    apply in_map_iff in Hi. destruct Hi as [x [Hx _]]. subst i.
    apply pending_expired_after. }
  split; [reflexivity|]. split; [exact Hnone|]. split.
  { rewrite cleanup_effect. simpl. rewrite map_map. apply map_ext. intros x.
    destruct (pending_expired (clock w) x); reflexivity. }
  split.
  { intros i Hi Hd. rewrite cleanup_effect. simpl. apply in_map_iff.
    exists i. rewrite Hd. split; [reflexivity | exact Hi]. }
  split.
  { intros i Hi Hd. rewrite cleanup_effect. simpl. apply in_map_iff.
    exists i. rewrite Hd. split; [reflexivity | exact Hi]. }
  split; [reflexivity|]. split; [reflexivity|].
  assert (Hid : map (fun r => if pending_expired (clock w) r
                     then TenantInvitation.touch (clock w)
                            (TenantInvitation.with_status Expired r)
                     else r)
                    (tenant_invitations (db (snd (cleanupExpiredInvitations w))))
                = tenant_invitations (db (snd (cleanupExpiredInvitations w)))).
  { rewrite <- (map_id (tenant_invitations _)) at 2. apply map_ext_in.
    intros x Hx. rewrite (Hnone x Hx). reflexivity. }
  split.
  - unfold cleanupExpiredInvitations at 1. unfold_more. simpl.
    rewrite filter_all_false; [reflexivity|].
    intros u Hu. apply Hnone. exact Hu.
  - rewrite cleanup_effect. rewrite Hclock. rewrite Hid.
    apply replace_same_invitations.
Qed.

Lemma filter_map_same : forall (A : Type) (p : A -> bool) (g : A -> A) (l : list A),
  (forall x, In x l -> p (g x) = p x /\ (p x = true -> g x = x)) ->
  filter p (map g l) = filter p l.
Proof.
  intros A p g l H. induction l as [|a l IH]; [reflexivity|]. simpl.
  destruct (H a (or_introl eq_refl)) as [H1 H2]. rewrite H1.
  destruct (p a) eqn:E.
  - rewrite (H2 eq_refl). f_equal. apply IH. intros x Hx. apply H. right. exact Hx.
  - apply IH. intros x Hx. apply H. right. exact Hx.
Qed.

(** X9.  [getPendingInvitationsByTenant] lists exactly the invitations of
    the tenant that are pending and not yet at their expiry, newest first.
    The clean-up of expired invitations does not change what it returns,
    and the [pendingInvitations] figure of [getTenantStats] is the length
    of that list. *)
Theorem pending_listing :
  forall (tenantId : string) (w : World),
    exists pending,
      fst (getPendingInvitationsByTenant tenantId w) = Ok pending /\
      (forall i, In i pending <->
                 In i (tenant_invitations (db w)) /\
                 TenantInvitation.tenant_id i = tenantId /\
                 TenantInvitation.status i = Pending /\
                 (clock w < TenantInvitation.expires_at i)%Z) /\
      newest_first TenantInvitation.created_at pending /\
      fst (getPendingInvitationsByTenant tenantId (snd (cleanupExpiredInvitations w)))
        = Ok pending /\
      exists stats,
        fst (getTenantStats tenantId w) = Ok stats /\
        TenantStats.pendingInvitations stats = length pending.
Proof using.
  intros tenantId w. eexists. split; [reflexivity|]. split; [|split; [|split]].
  - intros i. split.
    + intros Hi.
      apply (Permutation_in i (Permutation_sym (orderBy_desc_perm _ _))) in Hi.
      apply filter_In in Hi. destruct Hi as [Hin Hp]. unfold pending_unexpired in Hp.
      apply andb_true_iff in Hp. destruct Hp as [Hp H3].
      apply andb_true_iff in Hp. destruct Hp as [H1 H2].
      apply String.eqb_eq in H1. apply InvitationStatus_eqb_eq in H2.
      apply Z.ltb_lt in H3. simpl in H3. repeat split; assumption.
    + intros [Hin [H1 [H2 H3]]].
      apply (Permutation_in i (orderBy_desc_perm _ _)).
      apply filter_In. split; [exact Hin|]. unfold pending_unexpired. simpl.
      rewrite H1, H2, String.eqb_refl. simpl. apply Z.ltb_lt. exact H3.
  - apply orderBy_desc_sorted.
  - unfold getPendingInvitationsByTenant. unfold_more. simpl. f_equal. f_equal.
    apply filter_map_same. intros x _.
    destruct (pending_expired (clock w) x) eqn:E;
      [|split; [reflexivity | intros _; reflexivity]].
    unfold pending_expired in E. apply andb_true_iff in E. destruct E as [E1 E2].
    apply Z.ltb_lt in E2.
    assert (Hx : pending_unexpired tenantId (clock w) x = false).
    { unfold pending_unexpired.
      assert ((clock w <? TenantInvitation.expires_at x)%Z = false)
        by (apply Z.ltb_ge; lia).
      rewrite H. apply andb_false_r. }
    rewrite Hx. split; [|discriminate].
    unfold pending_unexpired. simpl. rewrite andb_false_r. reflexivity.
  - eexists. split; [reflexivity|]. simpl.
    apply Permutation_length. apply orderBy_desc_perm.
Qed.


(** *** Creating an invitation *)

Lemma find_app_last : forall (A : Type) (p : A -> bool) (l : list A) (x : A),
  find p l = None -> p x = true -> find p (l ++ [x]) = Some x.
Proof.
  intros A p l x Hn Hx. induction l as [|a l IH]; simpl in *.
  - rewrite Hx. reflexivity.
  - destruct (p a); [discriminate | apply IH; exact Hn].
Qed.

(** X10.  The token and the expiry of an invitation are the service's own:
    whatever [token] and [expiresAt] the caller puts in the payload,
    [createInvitation] behaves the same.  When it succeeds, the stored
    invitation carries the token just drawn, expires seven days after the
    current time, is for the tenant and email of the payload and is not
    accepted; before the call the tenant had no pending invitation and no
    membership for that email; the invitation is appended and nothing else
    changes.  If no earlier invitation carries the same token,
    [getInvitationByToken] then returns exactly this invitation. *)
Theorem createInvitation_token_and_expiry :
  forall (d : InvitationInput.t) (w : World),
    (forall tok exp,
       createInvitation (InvitationInput.with_token_expiry tok exp d) w
         = createInvitation d w) /\
    (forall row w',
       createInvitation d w = (Ok row, w') ->
       TenantInvitation.token row = token_source w (tokens_drawn w) /\
       TenantInvitation.expires_at row = (clock w + seven_days)%Z /\
       TenantInvitation.tenant_id row = InvitationInput.tenantId d /\
       TenantInvitation.email row = InvitationInput.email d /\
       TenantInvitation.accepted_at row = None /\
       find (same_pending (InvitationInput.tenantId d) (InvitationInput.email d))
            (tenant_invitations (db w)) = None /\
       find (same_email (InvitationInput.tenantId d) (InvitationInput.email d))
            (tenant_users (db w)) = None /\
       db w' = replace_tenant_invitations
                 (tenant_invitations (db w) ++ [row]) (db w) /\
       (find (fun i => TenantInvitation.token i =? TenantInvitation.token row)
             (tenant_invitations (db w)) = None ->
        fst (getInvitationByToken (TenantInvitation.token row) w') = Ok row)).
Proof.
  intros d w. split; [intros tok exp; destruct d; reflexivity|].
  intros row w'. unfold createInvitation. unfold_svc.
  unfold TenantInvitationSchema. simpl.
  cases; intros H; tidy; simpl.
  all: repeat split; try reflexivity; try assumption.
  all: intros Hfree; unfold getInvitationByToken; unfold_more; simpl;
       rewrite find_app_last; [reflexivity | exact Hfree | apply String.eqb_refl].
Qed.


(** *** Updating and deleting a tenant *)




Lemma count_existsb : forall (A : Type) (p : A -> bool) (l : list A),
  (0 <? length (filter p l))%nat = existsb p l.
Proof.
  intros A p l. induction l as [|a l IH]; [reflexivity|]. simpl.
  destruct (p a); [reflexivity | exact IH].
Qed.

Lemma filter_none : forall (A : Type) (p : A -> bool) (l : list A),
  existsb p l = false -> filter (fun x => negb (p x)) l = l.
Proof.
  intros A p l H. induction l as [|a l IH]; [reflexivity|]. simpl in *.
  apply orb_false_iff in H. destruct H as [Ha Hl]. rewrite Ha. simpl.
  f_equal. apply IH. exact Hl.
Qed.

Lemma find_filter_out : forall (A : Type) (p : A -> bool) (l : list A),
  find p (filter (fun x => negb (p x)) l) = None.
Proof.
  intros A p l. induction l as [|a l IH]; [reflexivity|]. simpl.
  destruct (p a) eqn:E; simpl; [exact IH | rewrite E; exact IH].
Qed.

(** X12.  [deleteTenant] fails with TenantNotFoundError on an unknown id
    and with TenantBusinessRuleError as soon as the tenant has a
    membership of any status; in both cases nothing changes.  Otherwise
    it returns the tenant; afterwards [getTenantById] fails for that id,
    the other tenants are as before, the tenant's invitations are gone
    with it, the invitations of other tenants are kept, and no membership
    is touched. *)
Theorem deleteTenant_only_without_members :
  forall (tenantId : string) (w : World),
    let r := deleteTenant tenantId w in
    match find (fun x => Tenant.id x =? tenantId) (tenants (db w)) with
    | None =>
        fst r = Throw (TenantNotFoundError "Tenant not found") /\ db (snd r) = db w
    | Some cur =>
        if existsb (fun u => TenantUser.tenant_id u =? tenantId) (tenant_users (db w))
        then fst r = Throw (TenantBusinessRuleError
                              "Cannot delete tenant with active users") /\
             db (snd r) = db w
        else
          fst r = Ok cur /\
          fst (getTenantById tenantId (snd r))
            = Throw (TenantNotFoundError "Tenant not found") /\
          (forall x, In x (tenants (db (snd r))) <->
                     In x (tenants (db w)) /\ Tenant.id x <> tenantId) /\
          (forall i, In i (tenant_invitations (db (snd r))) <->
                     In i (tenant_invitations (db w)) /\
                     TenantInvitation.tenant_id i <> tenantId) /\
          tenant_users (db (snd r)) = tenant_users (db w)
    end.
Proof.
  intros tenantId w r. subst r. unfold deleteTenant. unfold_svc. simpl.
  destruct (find (fun x => Tenant.id x =? tenantId) (tenants (db w))) as [cur|] eqn:Hf;
    simpl; [|split; reflexivity].
  rewrite count_existsb.
  destruct (existsb (fun u => TenantUser.tenant_id u =? tenantId)
                    (tenant_users (db w))) eqn:He; simpl; [split; reflexivity|].
  rewrite Hf. simpl. split; [reflexivity|]. split.
  { unfold getTenantById. unfold_more. simpl.
    rewrite (find_filter_out (fun x => Tenant.id x =? tenantId)). reflexivity. }
  split; [|split].
  - intros x. rewrite filter_In. split; intros [Hin Hx]; split; try exact Hin.
    + intros E. apply String.eqb_eq in E. rewrite E in Hx. discriminate Hx.
    + apply negb_true_iff. apply String.eqb_neq. exact Hx.
  - intros i. rewrite filter_In. split; intros [Hin Hx]; split; try exact Hin.
    + intros E. apply String.eqb_eq in E. rewrite E in Hx. discriminate Hx.
    + apply negb_true_iff. apply String.eqb_neq. exact Hx.
  - apply (filter_none (fun u => TenantUser.tenant_id u =? tenantId)). exact He.
Qed.

(** *** Memberships by id *)

Lemma find_app_new : forall (A : Type) (p : A -> bool) (l : list A) (x : A),
  existsb p l = false -> p x = true -> find p (l ++ [x]) = Some x.
Proof.
  intros A p l x Hn Hx. induction l as [|a l IH]; simpl in *.
  - rewrite Hx. reflexivity.
  - apply orb_false_iff in Hn. destruct Hn as [Ha Hl]. rewrite Ha. apply IH. exact Hl.
Qed.

(** X13.  A membership can be read back by its id and is gone after its
    deletion: when [createUser] returns a membership, [getUserById] on its
    id returns the same membership; when [deleteUser] succeeds,
    [getUserById] on that id fails with TenantUserNotFoundError, and every
    membership with another id is still there. *)
Theorem membership_read_back :
  forall (w : World),
    (forall d u w', createUser d w = (Ok u, w') ->
                    fst (getUserById (TenantUser.id u) w') = Ok u) /\
    (forall userId u w', deleteUser userId w = (Ok u, w') ->
       fst (getUserById userId w')
         = Throw (TenantUserNotFoundError "User not found") /\
       forall x, In x (tenant_users (db w)) -> TenantUser.id x <> userId ->
                 In x (tenant_users (db w'))).
Proof.
  intros w. split.
  - intros d u w'. unfold createUser, enforceBusinessRules. unfold_svc.
    destruct (TenantUserSchema d); simpl; [|intros H; discriminate H].
    cases; intros H; tidy; simpl.
    all: unfold getUserById; unfold_more; simpl.
    all: rewrite find_app_new; [reflexivity | assumption | apply String.eqb_refl].
  - intros userId u w'. unfold deleteUser. unfold_svc. simpl.
    cases; intros H; tidy; simpl.
    all: split;
      [ unfold getUserById; unfold_more; simpl;
        rewrite (find_filter_out (fun r => TenantUser.id r =? userId)); reflexivity
      | intros x Hin Hx; apply filter_In; split; [exact Hin|];
        apply negb_true_iff; apply String.eqb_neq; exact Hx ].
Qed.


(** *** Resolving the tenant of a request *)

Lemma split_nonempty : forall sep s, Middleware.split sep s <> [].
Proof.
  intros sep s. destruct s as [|c rest]; simpl; [discriminate|].
  destruct (Ascii.eqb c sep); [discriminate|].
  destruct (Middleware.split sep rest); discriminate.
Qed.

Lemma split_no_separator : forall sep s x,
  In x (Middleware.split sep s) -> contains_char sep x = false.
Proof.
  intros sep s. induction s as [|c rest IH]; intros x Hin; simpl in Hin.
  - destruct Hin as [H|[]]. subst x. reflexivity.
  - destruct (Ascii.eqb c sep) eqn:E.
    + destruct Hin as [H|H]; [subst x; reflexivity | apply IH; exact H].
    + destruct (Middleware.split sep rest) as [|h tl] eqn:Es.
      * destruct Hin as [H|[]]. subst x. simpl. rewrite E. reflexivity.
      * destruct Hin as [H|H].
        -- subst x. simpl. rewrite E. simpl. apply IH. left. reflexivity.
        -- apply IH. right. exact H.
Qed.

Lemma or_null_some : forall x s, Middleware.or_null x = Some s -> x = Some s /\ s <> "".
Proof.
  intros [x|] s H; simpl in H; [|discriminate].
  destruct (x =? "") eqn:E; [discriminate|]. inversion H; subst.
  split; [reflexivity|]. apply String.eqb_neq. exact E.
Qed.

(** X14.  What [extractTenantSlug] can return.  From a header, a query
    parameter or the path the result is never the empty string, and a
    slug taken from the path is the second segment of the pathname and
    contains no slash.  A slug taken from the host name is the part
    before the first dot: it contains no dot and is never "www" or
    "localhost". *)
Theorem extractTenantSlug_result :
  forall (request : Middleware.NextRequest)
         (options : Middleware.TenantMiddlewareOptions) (s : string),
    Middleware.extractTenantSlug request options = Some s ->
    match Middleware.extractFrom (Middleware.merge_options options) with
    | Some Middleware.subdomain =>
        s <> "www" /\ s <> "localhost" /\ contains_char "." s = false /\
        exists host, Middleware.get "host" (Middleware.headers request) = Some host /\
                     Middleware.split "." host = s :: tl (Middleware.split "." host)
    | Some Middleware.path =>
        s <> "" /\ contains_char "/" s = false /\
        nth_error (Middleware.split "/" (Middleware.pathname request)) 1 = Some s
    | Some Middleware.header =>
        s <> "" /\
        exists h, Middleware.headerName (Middleware.merge_options options) = Some h /\
                  Middleware.get h (Middleware.headers request) = Some s
    | Some Middleware.query =>
        s <> "" /\ Middleware.get "tenant" (Middleware.searchParams request) = Some s
    | None => False
    end.
Proof.
  intros request options s. unfold Middleware.extractTenantSlug.
  destruct (Middleware.extractFrom (Middleware.merge_options options)) as [[]|];
    [| | | |discriminate].
  - destruct (Middleware.headerName (Middleware.merge_options options)) as [h|];
      [|discriminate].
    intros H. apply or_null_some in H. destruct H as [H1 H2].
    split; [exact H2|]. exists h. split; [reflexivity | exact H1].
  - destruct (Middleware.or_null (Middleware.get "host" (Middleware.headers request)))
      as [host|] eqn:Eh; [|discriminate].
    apply or_null_some in Eh. destruct Eh as [Eh _].
    pose proof (split_nonempty "." host) as Hne.
    pose proof (split_no_separator "." host) as Hsep.
    destruct (Middleware.split "." host) as [|sub rest] eqn:Es; [contradiction|]. simpl.
    destruct (sub =? "www") eqn:E1; [discriminate|].
    destruct (sub =? "localhost") eqn:E2; [discriminate|]. simpl.
    intros H. inversion H; subst.
    split; [apply String.eqb_neq; exact E1|].
    split; [apply String.eqb_neq; exact E2|].
    split; [apply Hsep; left; reflexivity|].
    exists host. split; [exact Eh | rewrite Es; reflexivity].
  - intros H. apply or_null_some in H. destruct H as [H1 H2].
    split; [exact H2 | exact H1].
  - intros H. apply or_null_some in H. destruct H as [H1 H2].
    split; [exact H2|]. split; [|exact H1].
    apply (split_no_separator "/" (Middleware.pathname request)).
    apply nth_error_In with (n := 1). exact H1.
Qed.

Lemma merge_options_idem : forall o,
  Middleware.merge_options (Middleware.merge_options o) = Middleware.merge_options o.
Proof. intros [[r|] [e|] [h|] [f|]]; reflexivity. Qed.

Lemma extractTenantSlug_merged : forall request o,
  Middleware.extractTenantSlug request (Middleware.merge_options o)
    = Middleware.extractTenantSlug request o.
Proof.
  intros request o. unfold Middleware.extractTenantSlug.
  rewrite merge_options_idem. reflexivity.
Qed.

(** X15.  [getTenantContext] when the request names no tenant (nothing
    extracted, or the empty string).  With [required] left at its default
    or set, it throws "Tenant context is required but not provided"
    without reading any table.  With [required: false] it goes on with the
    fallback slug, "default" unless overridden, exactly as if the request
    had named that slug; only when the fallback is overridden by the empty
    string does it return null, again without reading any table. *)
Theorem getTenantContext_without_slug :
  forall (request : Middleware.NextRequest)
         (options : Middleware.TenantMiddlewareOptions) (w : World),
    Middleware.truthy (Middleware.extractTenantSlug request options) = false ->
    match Middleware.required options with
    | Some false =>
        match Middleware.fallbackTenantSlug options with
        | Some fb =>
            if fb =? "" then Middleware.getTenantContext request options w = (Ok None, w)
            else forall request',
              Middleware.extractTenantSlug request' options = Some fb ->
              Middleware.getTenantContext request options w
                = Middleware.getTenantContext request' options w
        | None =>
            forall request',
              Middleware.extractTenantSlug request' options = Some "default" ->
              Middleware.getTenantContext request options w
                = Middleware.getTenantContext request' options w
        end
    | _ =>
        Middleware.getTenantContext request options w
          = (Throw (Error "Tenant context is required but not provided"), w)
    end.
Proof.
  intros request options w Hx.
  unfold Middleware.getTenantContext.
  rewrite !extractTenantSlug_merged.
  remember (Middleware.extractTenantSlug request options) as x eqn:Ex.
  clear Ex.
  assert (Hn : Middleware.or_null x = None).
  { unfold Middleware.truthy in Hx.
    destruct (Middleware.or_null x); [discriminate | reflexivity]. }
  assert (Ht : forall fb, Middleware.truthy (Some fb) = negb (fb =? "")).
  { intros fb. unfold Middleware.truthy. simpl. destruct (fb =? ""); reflexivity. }
  destruct options as [[[]|] e h [fb|]]; simpl.
  all: rewrite ?Ht, ?Hx; simpl.
  all: try (rewrite Hx; reflexivity).
  - destruct (fb =? "") eqn:E; simpl.
    + rewrite Hx, Hn. reflexivity.
    + intros request' H'. rewrite <- extractTenantSlug_merged in H'.
      simpl in H'. rewrite H'.
      repeat (first [rewrite Ht | rewrite E | progress simpl]). reflexivity.
  - intros request' H'. rewrite <- extractTenantSlug_merged in H'.
    simpl in H'. rewrite H'. reflexivity.
Qed.

Lemma permission_tables_agree : forall role p,
  existsb (fun q => q =? p) (Middleware.getRolePermissions role)
    = Types.hasPermission role p.
Proof.
  intros role p. unfold Middleware.getRolePermissions, Types.hasPermission.
  change Types.ROLE_PERMISSIONS with Middleware.permissions_table.
  destruct (Middleware.lookup role Middleware.permissions_table); reflexivity.
Qed.

(** X16.  What a tenant context returned by [getTenantContext] holds: a
    tenant of the store whose slug is the one the request named (or the
    fallback slug), a membership of the store in that tenant whose
    identity is the authenticated caller, and the permissions of that
    membership's role, so that [checkPermission] on the context agrees
    with [hasPermission] on the role.  Resolving changes no table. *)
Theorem getTenantContext_result :
  forall (request : Middleware.NextRequest)
         (options : Middleware.TenantMiddlewareOptions)
         (w w' : World) (ctx : Middleware.TenantContext),
    Middleware.getTenantContext request options w = (Ok (Some ctx), w') ->
    In (Middleware.tenant ctx) (tenants (db w)) /\
    (Middleware.extractTenantSlug request options
       = Some (Tenant.slug (Middleware.tenant ctx)) \/
     Middleware.fallbackTenantSlug (Middleware.merge_options options)
       = Some (Tenant.slug (Middleware.tenant ctx))) /\
    In (Middleware.user ctx) (tenant_users (db w)) /\
    TenantUser.tenant_id (Middleware.user ctx) = Tenant.id (Middleware.tenant ctx) /\
    auth_userId w = Some (TenantUser.clerk_user_id (Middleware.user ctx)) /\
    Middleware.permissions ctx
      = Middleware.getRolePermissions
          (role_name (TenantUser.role (Middleware.user ctx))) /\
    (forall p, Middleware.checkPermission ctx p
               = Types.hasPermission
                   (role_name (TenantUser.role (Middleware.user ctx))) p) /\
    db w' = db w.
Proof.
  intros request options w w' ctx.
  unfold Middleware.getTenantContext.
  rewrite !extractTenantSlug_merged.
  remember (Middleware.extractTenantSlug request options) as x eqn:Ex. clear Ex.
  remember (Middleware.merge_options options) as o eqn:Eo. clear Eo.
  cbv zeta.
  match goal with
  | |- context [Middleware.or_null ?s] =>
      match s with
      | context [Middleware.fallbackTenantSlug o] =>
          assert (Hs : forall slug, Middleware.or_null s = Some slug ->
                         x = Some slug \/ Middleware.fallbackTenantSlug o = Some slug);
          [ intros slug Hslug; apply or_null_some in Hslug; destruct Hslug as [Hslug _];
            match type of Hslug with
            | (if ?c then _ else _) = _ => destruct c
            end; [right | left]; exact Hslug
          | remember s as chosen eqn:Ec; clear Ec ]
      end
  end.
  destruct (negb (Middleware.truthy chosen) &&
            match Middleware.required o with Some b => b | None => false end);
    [intros H; discriminate H|].
  destruct (Middleware.or_null chosen) as [slug|] eqn:Eslug;
    [|intros H; inversion H].
  specialize (Hs slug eq_refl).
  unfold Middleware.auth. unfold_more. simpl.
  destruct (find (fun t => Tenant.slug t =? slug) (tenants (db w))) as [t|] eqn:Et;
    simpl; [|intros H; discriminate H].
  destruct (Middleware.or_null (auth_userId w)) as [uid|] eqn:Eu;
    simpl; [|intros H; discriminate H].
  destruct (find (fun u => (TenantUser.tenant_id u =? Tenant.id t)
                           && (TenantUser.clerk_user_id u =? uid))
                 (tenant_users (db w))) as [u|] eqn:Em;
    simpl; [|intros H; discriminate H].
  intros H. inversion H; subst; clear H. simpl.
  apply find_some in Et. destruct Et as [Hin Hslug]. apply String.eqb_eq in Hslug.
  apply find_some in Em. destruct Em as [Hinu Hu].
  apply andb_true_iff in Hu. destruct Hu as [Hu1 Hu2].
  apply String.eqb_eq in Hu1. apply String.eqb_eq in Hu2.
  apply or_null_some in Eu. destruct Eu as [Eu _].
  rewrite Hslug.
  repeat split; try assumption; try reflexivity.
  - rewrite Eu, Hu2. reflexivity.
  - intros p. apply permission_tables_agree.
Qed.


(** *** The tenant-aware gateway *)

(** X17.  A gateway client with no tenant bound (never bound, or bound to
    the empty string) refuses every wrapped operation: whatever the
    callback, [executeWithTenantContext] throws "Tenant context not set"
    before running it, so no statement is sent, no table is read or
    written and the session setting is not touched.  This includes the
    two [create] wrappers.  A client made by [createTenantAwarePrisma]
    without a tenant id, or with the empty string, is such a client. *)
Theorem gateway_requires_bound_tenant :
  forall (w : World),
    Middleware.truthy (client_tenantId w) = false ->
    let refused := Error "Tenant context not set. Call setTenantContext() first." in
    (forall (A : Type) (callback : M A),
       Gateway.executeWithTenantContext callback w = (Throw refused, w)) /\
    (forall data, Gateway.tenantUsers_create data w = (Throw refused, w)) /\
    (forall data, Gateway.tenantInvitations_create data w = (Throw refused, w)) /\
    (forall tenantId, Middleware.truthy tenantId = false ->
       Middleware.truthy
         (client_tenantId (snd (Gateway.createTenantAwarePrisma tenantId w))) = false).
Proof.
  intros w Hw refused. subst refused.
  assert (Hx : forall (A : Type) (callback : M A),
             Gateway.executeWithTenantContext callback w
             = (Throw (Error "Tenant context not set. Call setTenantContext() first."), w)).
  { intros A callback. unfold Gateway.executeWithTenantContext, Gateway.getTenantContext.
    unfold_more. simpl. unfold Middleware.truthy in Hw.
    destruct (client_tenantId w) as [t|]; simpl in *; [|reflexivity].
    destruct (t =? ""); [reflexivity | discriminate Hw]. }
  split; [exact Hx|]. split; [intros data; apply Hx|]. split; [intros data; apply Hx|].
  intros tenantId Ht. unfold Gateway.createTenantAwarePrisma, Middleware.truthy in *.
  destruct tenantId as [t|]; simpl in *; [|reflexivity].
  destruct (t =? ""); [reflexivity | discriminate Ht].
Qed.



(** *** The membership route *)

Lemma createUser_outcome : forall d w,
  match createUser d w with
  | (Ok u, w') =>
      TenantUser.tenant_id u = UserInput.tenantId d /\
      TenantUser.clerk_user_id u = UserInput.clerkUserId d /\
      TenantUser.email u = UserInput.email d /\
      (forall s, UserInput.status d = Some s ->
                 TenantStatusEnum s = Some (TenantUser.status u)) /\
      (forall s, UserInput.role d = Some s ->
                 TenantRoleEnum s = Some (TenantUser.role u)) /\
      db w' = replace_tenant_users (tenant_users (db w) ++ [u]) (db w)
  | (Throw e, w') =>
      (e = ZodError \/ e = P2002 \/ exists m, e = TenantBusinessRuleError m) /\
      db w' = db w
  end.
Proof.
  intros d w. unfold createUser, enforceBusinessRules. unfold_svc.
  unfold TenantUserSchema. simpl.
  cases; tidy; simpl.
  all: try (split; [|reflexivity]).
  all: try (left; reflexivity).
  all: try (right; left; reflexivity).
  all: try (right; right; eexists; reflexivity).
  all: repeat split; try reflexivity.
  all: try (intros s Hs; rewrite Hs in *; simpl in *; assumption).
Qed.

(** X19.  [POST /api/tenants/[slug]/users] always answers, with one of
    the statuses 201, 400, 401, 404, 409 and 500, and never touches
    tenants or invitations.  Without an authenticated caller the answer is
    401 and nothing is read.  Status 201 means exactly one membership was
    appended: the one in the response body, active, in the tenant the slug
    names, with the identity and email of the request body.  With any
    other status the store is unchanged. *)
Theorem route_POST_responses :
  forall (slug : string) (body : option CreateUserBody.t) (w : World),
    exists r w',
      route_POST slug body w = (Ok r, w') /\
      tenants (db w') = tenants (db w) /\
      tenant_invitations (db w') = tenant_invitations (db w) /\
      (Middleware.truthy (auth_userId w) = false -> r = unauthorized /\ w' = w) /\
      if (Response.status r =? 201)%nat then
        exists t b u,
          find (fun x => Tenant.slug x =? slug) (tenants (db w)) = Some t /\
          body = Some b /\
          Response.body r = UserBody u /\
          TenantUser.tenant_id u = Tenant.id t /\
          TenantUser.clerk_user_id u = CreateUserBody.clerkUserId b /\
          TenantUser.email u = CreateUserBody.email b /\
          TenantUser.status u = Active /\
          tenant_users (db w') = (tenant_users (db w) ++ [u])%list
      else
        In (Response.status r) [400; 401; 404; 409; 500]%nat /\ db w' = db w.
Proof.
  intros slug body w. unfold route_POST, catch_response, Middleware.auth.
  unfold_more. simpl.
  destruct (Middleware.truthy (auth_userId w)) eqn:Ha; simpl.
  2:{ eexists. eexists. split; [reflexivity|]. simpl.
      repeat split; try reflexivity. right. left. reflexivity. }
  destruct body as [b|]; simpl.
  2:{ eexists. eexists. split; [reflexivity|]. simpl.
      repeat split; try reflexivity; try discriminate.
      right. right. right. right. left. reflexivity. }
  destruct (createUserSchema b) as [v|e] eqn:Ev; simpl.
  2:{ assert (e = ZodError).
      { unfold createUserSchema in Ev. revert Ev.
        cases; intros Ev; tidy; try discriminate Ev; reflexivity. }
      subst e. eexists. eexists. split; [reflexivity|]. simpl.
      repeat split; try reflexivity; try discriminate. left. reflexivity. }
  unfold route_getTenantBySlug, getTenantBySlug, new_client, disconnect,
    Gateway.setTenantContext.
  unfold_more. simpl.
  destruct (find (fun x => Tenant.slug x =? slug) (tenants (db w))) as [t|] eqn:Et; simpl.
  2:{ eexists. eexists. split; [reflexivity|]. simpl.
      repeat split; try reflexivity; try discriminate.
      right. right. left. reflexivity. }
  match goal with
  | |- context [createUser ?d ?w0] =>
      pose proof (createUser_outcome d w0) as Hc;
      destruct (createUser d w0) as [[u|e] w1] eqn:Ec
  end; simpl in *.
  - destruct Hc as [H1 [H2 [H3 [H4 [_ H5]]]]].
    eexists. eexists. split; [reflexivity|]. simpl. rewrite H5. simpl.
    repeat split; try reflexivity; try discriminate.
    exists t, b, u. repeat split; try reflexivity; try assumption.
    + rewrite H2. unfold createUserSchema in Ev. revert Ev.
      cases; intros Ev; tidy; try discriminate Ev; reflexivity.
    + rewrite H3. unfold createUserSchema in Ev. revert Ev.
      cases; intros Ev; tidy; try discriminate Ev; reflexivity.
    + specialize (H4 "active" eq_refl). simpl in H4. inversion H4. reflexivity.
  - destruct Hc as [He Hd].
    destruct He as [He|[He|[m He]]]; subst e; simpl.
    all: eexists; eexists; (split; [reflexivity|]); simpl; rewrite Hd;
      repeat split; try reflexivity; try discriminate.
    + left. reflexivity.
    + right. right. right. right. left. reflexivity.
    + right. right. right. left. reflexivity.
Qed.


(** X20.  [GET /api/tenants/[slug]/users] always answers and never
    changes the store: 401 without an authenticated caller, 404 with
    "Tenant not found" for a slug no tenant has, and otherwise 200 with
    the list [getTenantUsers] gives for the tenant of that slug: the
    memberships of that tenant and no others, every status included. *)
Theorem route_GET_responses :
  forall (slug : string) (w : World),
    exists r w',
      route_GET slug w = (Ok r, w') /\ db w' = db w /\
      if Middleware.truthy (auth_userId w) then
        match find (fun x => Tenant.slug x =? slug) (tenants (db w)) with
        | None => r = Response.mk 404 (ErrorBody "Tenant not found")
        | Some t =>
            exists users,
              r = Response.mk 200 (UsersBody users) /\
              fst (getTenantUsers (Tenant.id t) w) = Ok users /\
              forall u, In u users <->
                        In u (tenant_users (db w)) /\
                        TenantUser.tenant_id u = Tenant.id t
        end
      else r = unauthorized /\ w' = w.
Proof.
  intros slug w. unfold route_GET, catch_response, Middleware.auth.
  unfold_more. simpl.
  destruct (Middleware.truthy (auth_userId w)) eqn:Ha; simpl.
  2:{ eexists. eexists. repeat split; reflexivity. }
  unfold route_getTenantBySlug, getTenantBySlug, new_client, disconnect, getTenantUsers,
    tenant_users_findMany_desc.
  unfold_more. simpl.
  destruct (find (fun x => Tenant.slug x =? slug) (tenants (db w))) as [t|] eqn:Et; simpl.
  2:{ eexists. eexists. repeat split; reflexivity. }
  eexists. eexists. split; [reflexivity|]. split; [reflexivity|].
  eexists. split; [reflexivity|]. split; [reflexivity|].
  intros u. split.
  - intros Hu.
    apply (Permutation_in u (Permutation_sym (orderBy_desc_perm _ _))) in Hu.
    apply filter_In in Hu. destruct Hu as [Hin Hp]. apply String.eqb_eq in Hp.
    split; assumption.
  - intros [Hin Hp].
    apply (Permutation_in u (orderBy_desc_perm _ _)).
    apply filter_In. split; [exact Hin | apply String.eqb_eq; exact Hp].
Qed.

(** X21.  Neither handler of the route looks at who the caller is beyond
    being authenticated: for any two authenticated callers, members of
    the tenant or not, GET returns the same response, and POST returns
    the same response and leaves the same store. *)
Theorem route_ignores_who_calls :
  forall (slug : string) (body : option CreateUserBody.t)
         (caller1 caller2 : string) (w : World),
    caller1 <> "" -> caller2 <> "" ->
    let w1 := set_auth_userId (Some caller1) w in
    let w2 := set_auth_userId (Some caller2) w in
    fst (route_GET slug w1) = fst (route_GET slug w2) /\
    fst (route_POST slug body w1) = fst (route_POST slug body w2) /\
    db (snd (route_POST slug body w1)) = db (snd (route_POST slug body w2)).
Proof.
  intros slug body caller1 caller2 w H1 H2 w1 w2. subst w1 w2.
  apply String.eqb_neq in H1. apply String.eqb_neq in H2.
  unfold route_GET, route_POST, catch_response, Middleware.auth, Middleware.truthy.
  unfold_more. simpl. rewrite H1, H2. simpl.
  unfold route_getTenantBySlug, getTenantBySlug, new_client, disconnect, getTenantUsers,
    tenant_users_findMany_desc, Gateway.setTenantContext.
  unfold_more. simpl.
  split.
  - destruct (find (fun x => Tenant.slug x =? slug) (tenants (db w))); reflexivity.
  - destruct body as [b|]; simpl; [|split; reflexivity].
    destruct (createUserSchema b) as [v|e]; simpl; [|split; reflexivity].
    destruct (find (fun x => Tenant.slug x =? slug) (tenants (db w))) as [t|];
      simpl; [|split; reflexivity].
    unfold createUser, enforceBusinessRules. unfold_svc.
    destruct (TenantUserSchema (createUser_payload (Tenant.id t) v)) as [d|e];
      simpl; [|split; reflexivity].
    cases; split; reflexivity.
Qed.


(** *** Owner and statistics of a tenant *)

Lemma count_zero_none : forall (A : Type) (p : A -> bool) (l : list A) (x : A),
  length (filter p l) = 0 -> In x l -> p x = false.
Proof.
  intros A p l x H Hin. destruct (p x) eqn:E; [|reflexivity].
  pose proof (count_pos p l x Hin E). lia.
Qed.

Lemma count_le1_unique : forall (A : Type) (p : A -> bool) (l : list A) (x y : A),
  length (filter p l) <= 1 -> In x l -> In y l -> p x = true -> p y = true -> x = y.
Proof.
  intros A p l x y. induction l as [|a l IH]; intros Hc Hx Hy Px Py; [contradiction|].
  simpl in Hc. destruct (p a) eqn:Ea.
  - simpl in Hc. assert (H0 : length (filter p l) = 0) by lia.
    destruct Hx as [Hx|Hx]; destruct Hy as [Hy|Hy]; subst;
      try reflexivity;
      try (rewrite (count_zero_none p l _ H0 Hx) in Px; discriminate Px);
      try (rewrite (count_zero_none p l _ H0 Hy) in Py; discriminate Py).
  - destruct Hx as [Hx|Hx]; [subst; congruence|].
    destruct Hy as [Hy|Hy]; [subst; congruence|].
    apply IH; assumption.
Qed.

(** X22.  [getTenantOwner] fails with TenantNotFoundError exactly when the
    tenant has no membership with role owner, whatever its status, and
    otherwise returns a stored owner membership of that tenant: the first
    in table order, and the only one when the tenant has a single owner.
    It changes no table. *)
Theorem getTenantOwner_returns_the_owner :
  forall (tenantId : string) (w : World),
    db (snd (getTenantOwner tenantId w)) = db w /\
    match fst (getTenantOwner tenantId w) with
    | Ok o =>
        In o (tenant_users (db w)) /\
        TenantUser.tenant_id o = tenantId /\ TenantUser.role o = Owner /\
        1 <= owner_count tenantId (db w) /\
        (owner_count tenantId (db w) <= 1 ->
         forall o', In o' (tenant_users (db w)) ->
                    TenantUser.tenant_id o' = tenantId ->
                    TenantUser.role o' = Owner -> o' = o)
    | Throw e =>
        e = TenantNotFoundError "Tenant owner not found" /\
        owner_count tenantId (db w) = 0
    end.
Proof.
  intros tenantId w. unfold getTenantOwner. unfold_more. simpl.
  fold (is_owner_of tenantId).
  destruct (find (is_owner_of tenantId) (tenant_users (db w))) as [o|] eqn:Ef; simpl.
  - split; [reflexivity|].
    apply find_some in Ef. destruct Ef as [Hin Hp].
    pose proof Hp as Hp'. unfold is_owner_of in Hp'.
    apply andb_true_iff in Hp'. destruct Hp' as [Ht Hr].
    apply String.eqb_eq in Ht. apply TenantRole_eqb_eq in Hr.
    repeat split; try assumption.
    + unfold owner_count. apply (count_pos _ _ _ Hin Hp).
    + intros Hc o' Hin' Ht' Hr'.
      apply (@count_le1_unique _ (is_owner_of tenantId) (tenant_users (db w)));
        try assumption.
      unfold is_owner_of. rewrite Ht', Hr', String.eqb_refl. reflexivity.
  - split; [reflexivity|]. split; [reflexivity|].
    unfold owner_count. apply find_none_count. exact Ef.
Qed.

(** X23.  The figures of [getTenantStats]: [totalUsers] is the number of
    memberships [getTenantUsers] lists for the tenant, of every status;
    [adminUsers] counts those among them with role owner or admin, so it
    is at most [totalUsers] and at least the tenant's number of owners.
    For a tenant without memberships and invitations all figures are 0.
    Computing them changes no table. *)
Theorem getTenantStats_figures :
  forall (tenantId : string) (w : World),
    exists stats users,
      fst (getTenantStats tenantId w) = Ok stats /\
      db (snd (getTenantStats tenantId w)) = db w /\
      fst (getTenantUsers tenantId w) = Ok users /\
      TenantStats.totalUsers stats = length users /\
      TenantStats.adminUsers stats
        = length (filter (fun u => (TenantUser.tenant_id u =? tenantId)
                                   && (TenantRole_eqb (TenantUser.role u) Owner
                                       || TenantRole_eqb (TenantUser.role u) Admin))
                         (tenant_users (db w))) /\
      TenantStats.adminUsers stats <= TenantStats.totalUsers stats /\
      owner_count tenantId (db w) <= TenantStats.adminUsers stats /\
      ((forall u, In u (tenant_users (db w)) -> TenantUser.tenant_id u <> tenantId) ->
       (forall i, In i (tenant_invitations (db w)) ->
                  TenantInvitation.tenant_id i <> tenantId) ->
       stats = TenantStats.mk 0 0 0).
Proof using.
  intros tenantId w. eexists. eexists.
  split; [reflexivity|]. split; [reflexivity|]. split; [reflexivity|]. simpl.
  split; [apply Permutation_length; apply orderBy_desc_perm|].
  split; [reflexivity|].
  split.
  { apply count_le. intros x _ Hx. apply andb_true_iff in Hx.
    destruct Hx as [Hx _]. exact Hx. }
  split.
  { unfold owner_count. apply count_le. intros x _ Hx. unfold is_owner_of in Hx.
    apply andb_true_iff in Hx. destruct Hx as [H1 H2]. rewrite H1, H2. reflexivity. }
  intros Hu Hi. f_equal.
  - apply length_zero_iff_nil. apply filter_all_false. intros u Hin.
    apply String.eqb_neq. apply Hu. exact Hin.
  - apply length_zero_iff_nil. apply filter_all_false. intros u Hin.
    apply andb_false_iff. left. apply String.eqb_neq. apply Hu. exact Hin.
  - apply length_zero_iff_nil. apply filter_all_false. intros i Hin.
    apply andb_false_iff. left. apply andb_false_iff. left.
    apply String.eqb_neq. apply Hi. exact Hin.
Qed.


(** *** Permission tables *)





(** *** Updating a membership *)

Lemma find_after_user_update : forall uid (f : TenantUser.t -> TenantUser.t) now l cur,
  (forall x, TenantUser.id (f x) = TenantUser.id x) ->
  find (fun u => TenantUser.id u =? uid) l = Some cur ->
  find (fun u => TenantUser.id u =? uid)
       (map (fun r => if TenantUser.id r =? uid then TenantUser.touch now (f r) else r) l)
  = Some (TenantUser.touch now (f cur)).
Proof.
  intros uid f now l cur Hf Hfind.
  rewrite (find_map_key TenantUser.id).
  - rewrite Hfind. simpl. apply find_some in Hfind. destruct Hfind as [_ Hid].
    rewrite Hid. reflexivity.
  - intros x. destruct (TenantUser.id x =? uid); [|reflexivity]. simpl. apply Hf.
Qed.

(** X25.  A successful [updateUserRole] or [updateUserStatus] changes one
    field of one membership: the membership returned is the stored one
    with the new role (or status) and the update time, every other field
    as before; [getUserById] on that id returns it; the memberships with
    other ids are untouched and none is added or removed.  The role or
    status string has to be one of the enumeration. *)
Theorem membership_updates_read_back :
  forall (userId : string) (w : World),
    (forall newRole u w',
       updateUserRole userId newRole w = (Ok u, w') ->
       exists cur,
         find (fun x => TenantUser.id x =? userId) (tenant_users (db w)) = Some cur /\
         TenantRoleEnum newRole = Some (TenantUser.role u) /\
         u = TenantUser.touch (clock w) (TenantUser.with_role (TenantUser.role u) cur) /\
         fst (getUserById userId w') = Ok u /\
         (forall x, In x (tenant_users (db w)) -> TenantUser.id x <> userId ->
                    In x (tenant_users (db w'))) /\
         length (tenant_users (db w')) = length (tenant_users (db w))) /\
    (forall newStatus u w',
       updateUserStatus userId newStatus w = (Ok u, w') ->
       exists cur,
         find (fun x => TenantUser.id x =? userId) (tenant_users (db w)) = Some cur /\
         TenantStatusEnum newStatus = Some (TenantUser.status u) /\
         u = TenantUser.touch (clock w)
               (TenantUser.with_status (TenantUser.status u) cur) /\
         fst (getUserById userId w') = Ok u /\
         (forall x, In x (tenant_users (db w)) -> TenantUser.id x <> userId ->
                    In x (tenant_users (db w'))) /\
         length (tenant_users (db w')) = length (tenant_users (db w))).
Proof.
  intros userId w. split.
  - intros newRole u w'. unfold updateUserRole, enforceOwnershipRules.
    unfold_svc. simpl. cases; intros H; tidy; try discriminate H; simpl.
    all: eexists; split; [reflexivity|]; split; [first [assumption | reflexivity]|];
         split; [reflexivity|]; split; [|split].
    all: try (unfold getUserById; unfold_more; simpl;
              erewrite find_after_user_update;
              [reflexivity | intros x; reflexivity | eassumption]).
    all: try (intros x Hin Hne; apply in_map_iff; exists x; split; [|exact Hin];
              apply String.eqb_neq in Hne; rewrite Hne; reflexivity).
    all: apply length_map.
  - intros newStatus u w'. unfold updateUserStatus.
    unfold_svc. simpl. cases; intros H; tidy; try discriminate H; simpl.
    all: eexists; split; [reflexivity|]; split; [first [assumption | reflexivity]|];
         split; [reflexivity|]; split; [|split].
    all: try (unfold getUserById; unfold_more; simpl;
              erewrite find_after_user_update;
              [reflexivity | intros x; reflexivity | eassumption]).
    all: try (intros x Hin Hne; apply in_map_iff; exists x; split; [|exact Hin];
              apply String.eqb_neq in Hne; rewrite Hne; reflexivity).
    all: apply length_map.
Qed.

End Services.

(* ------------------------------------------------------------------ *)
(** ** Worked instances *)



(** C3, counterexample.  The operations do not hold the tenant scope and
    do not keep every check inside the transaction.  On a fresh session,
    even with the client bound to the tenant by [setTenantContext] as the
    route handler does, [deleteUser] reads [tenant_users] with the session
    scope empty; and for any format checks that accept the sample input,
    [createUser] reads [tenant_users] before its transaction has begun. *)
Lemma scope_not_held_by_operations :
  ~ Forall scope_held
      (events_of sample_zod_uuid sample_zod_email 0%Z
         (OpDeleteUser "bbbbbbbb-0000-0000-0000-000000000002")
         (snd (Gateway.setTenantContext acme_id (fresh_session acme_db 5%Z None))))
  /\
  (forall zod_uuid zod_email loaded,
     zod_uuid acme_id = true -> zod_email "a@acme.com" = true ->
     ~ Forall scope_held
         (events_of zod_uuid zod_email loaded (OpCreateUser owner_input)
            (fresh_session empty_db 5%Z None))).
Proof.
  split.
  - intros H. vm_compute in H. inversion H as [|e l Hhd Htl]; subst.
    inversion Htl as [|e' l' Hacc _]; subst.
    simpl in Hacc. destruct Hacc as [_ Hscope]. apply Hscope; reflexivity.
  - intros zod_uuid zod_email loaded Hu He H.
    unfold events_of, exec, discard, createUser, validateTenantUser,
      TenantUserSchema, enforceBusinessRules, owner_input in H.
    unfold_monad. simpl in H. rewrite Hu, He in H. simpl in H.
    inversion H as [|e l Hacc _]; subst.
    simpl in Hacc. destruct Hacc as [Htx _]. discriminate Htx.
Qed.

Lemma operations_transaction_and_scope_witness :
  let op := OpCreateUser owner_input in
  let w := fresh_session empty_db 5%Z None in
  in_tx w = false /\
  Forall (discipline op (current_tenant_id w))
         (events_of sample_zod_uuid sample_zod_email 0%Z op w) /\
  transactions_opened (events_of sample_zod_uuid sample_zod_email 0%Z op w) <= 1.
Proof.
  intros op w. split; [reflexivity|].
  apply (operations_transaction_and_scope sample_zod_uuid sample_zod_email 0%Z op w).
  reflexivity.
Defined.

(** C6, evaluated.  At time 2000 the stale invitation is pending and past
    its expiry.  [acceptInvitation] fails with "Invitation has expired"
    and creates no membership, but the invitation is still stored as
    pending: the update to expired ran inside the transaction that the
    error then rolled back.  A second call therefore fails with the same
    message, not with the not-pending one. *)
Theorem acceptInvitation_expiry_is_rolled_back :
  let w := fresh_session (mkDatabase [acme] [acme_owner] [stale_invitation]) 2000%Z None in
  let w1 := snd (acceptInvitation (TenantInvitation.id stale_invitation) "ext_4" w) in
  fst (acceptInvitation (TenantInvitation.id stale_invitation) "ext_4" w)
    = Throw (TenantBusinessRuleError "Invitation has expired") /\
  tenant_users (db w1) = [acme_owner] /\
  map TenantInvitation.status (tenant_invitations (db w1)) = [Pending] /\
  In (EvAccess T_tenant_invitations true true "") (trace w1) /\
  hd_error (trace w1) = Some EvRollback /\
  fst (acceptInvitation (TenantInvitation.id stale_invitation) "ext_4" w1)
    = Throw (TenantBusinessRuleError "Invitation has expired").
Proof.
  simpl. repeat split; try reflexivity.
  vm_compute. right. left. reflexivity.
Qed.

Lemma failed_operation_changes_nothing_witness :
  let op := OpAcceptInvitation (TenantInvitation.id stale_invitation) "ext_4" in
  let w := fresh_session (mkDatabase [acme] [acme_owner] [stale_invitation]) 2000%Z None in
  let w' := snd (exec sample_zod_uuid sample_zod_email 0%Z op w) in
  exec sample_zod_uuid sample_zod_email 0%Z op w
    = (Throw (TenantBusinessRuleError "Invitation has expired"), w') /\
  db w' = db w.
Proof.
  intros op w w'.
  assert (H : exec sample_zod_uuid sample_zod_email 0%Z op w
              = (Throw (TenantBusinessRuleError "Invitation has expired"), w'))
    by reflexivity.
  split; [exact H|].
  exact (failed_operation_changes_nothing sample_zod_uuid sample_zod_email 0%Z op w H).
Defined.



Lemma getTenantContext_ignores_status_witness :
  let request := Middleware.mkRequest [("x-tenant-slug", "acme")] [] "/api/users" in
  let options := Middleware.mkOptions None None None None in
  let w := fresh_session (mkDatabase [acme] [acme_owner; acme_suspended_member] [])
             5%Z (Some "ext_3") in
  fst (Middleware.getTenantContext request options w)
    = Ok (Some (Middleware.mkContext acme acme_suspended_member
                  (Middleware.getRolePermissions "admin")))
  /\ fst (Middleware.validateTenantAccess acme_id "ext_3" w) = Ok None.
Proof.
  intros request options w.
  apply (@getTenantContext_ignores_status request options w
           "acme" acme "ext_3" acme_suspended_member).
  - reflexivity.
  - discriminate.
  - reflexivity.
  - reflexivity.
  - discriminate.
  - simpl. right. left. reflexivity.
  - reflexivity.
  - reflexivity.
  - intros u [Hu|[Hu|[]]] _ Hc; subst u; [discriminate Hc | reflexivity].
  - discriminate.
Defined.

(** The scenario of the specification: the creator becomes the owner, a
    second owner is refused, a second pending invitation for one address
    is refused, and an accepted invitation cannot be accepted again. *)
Example scenario_acme :
  let zu := sample_zod_uuid in
  let ze := sample_zod_email in
  let tid := sample_uuid 0 in
  let w1 := snd (createTenant acme_input "ext_1" "a@acme.com"
                   (fresh_session empty_db 5%Z None)) in
  let second_owner :=
    UserInput.mk tid "ext_2" "b@acme.com" None None (Some "owner") None None in
  let invite :=
    InvitationInput.mk tid "c@acme.com" (Some "member") None None "" 0%Z in
  let w2 := snd (createInvitation zu ze 0%Z invite w1) in
  let w3 := snd (acceptInvitation (sample_uuid 2) "ext_3" w2) in
  map TenantUser.role (tenant_users (db w1)) = [Owner] /\
  fst (createUser zu ze second_owner w1)
    = Throw (TenantBusinessRuleError "Tenant already has an owner") /\
  fst (createInvitation zu ze 0%Z invite w2)
    = Throw (TenantBusinessRuleError "User already has a pending invitation") /\
  map TenantUser.clerk_user_id (tenant_users (db w3)) = ["ext_1"; "ext_3"] /\
  map TenantInvitation.status (tenant_invitations (db w3)) = [Accepted] /\
  fst (acceptInvitation (sample_uuid 2) "ext_3" w3)
    = Throw (TenantBusinessRuleError "Invalid or expired invitation").
Proof. vm_compute. repeat split; reflexivity. Qed.

(** The resolver on the four sources of a slug. *)
Example extractTenantSlug_sources :
  let request :=
    Middleware.mkRequest [("host", "acme.example.com"); ("x-tenant-slug", "beta")]
                         [("tenant", "gamma")] "/delta/users" in
  let from src := Middleware.mkOptions None (Some src) None None in
  Middleware.extractTenantSlug request (from Middleware.header) = Some "beta" /\
  Middleware.extractTenantSlug request (from Middleware.subdomain) = Some "acme" /\
  Middleware.extractTenantSlug request (from Middleware.query) = Some "gamma" /\
  Middleware.extractTenantSlug request (from Middleware.path) = Some "delta" /\
  Middleware.extractTenantSlug
    (Middleware.mkRequest [("host", "www.example.com")] [] "/")
    (from Middleware.subdomain) = None.
Proof. vm_compute. repeat split; reflexivity. Qed.

(* ------------------------------------------------------------------ *)
(** ** Worked instances of the further properties *)

Lemma memberships_stay_unique_witness :
  let ops := [OpCreateUser owner_input; OpCreateUser admin_input;
              OpCreateUser admin_input;
              OpUpdateUserRole "00000000-0000-0000-0000-000000000002" "viewer"] in
  let w := fresh_session empty_db 5%Z None in
  forallb membership_op ops = true /\
  identity_unique (db w) /\
  email_unique (db w) /\
  identity_unique (db (run sample_zod_uuid sample_zod_email 0%Z ops w)) /\
  email_unique (db (run sample_zod_uuid sample_zod_email 0%Z ops w)).
Proof.
  intros ops w.
  assert (H1 : forallb membership_op ops = true) by reflexivity.
  assert (H2 : identity_unique (db w)) by (intros tid cid; apply Nat.le_0_l).
  assert (H3 : email_unique (db w)) by (intros tid em; apply Nat.le_0_l).
  repeat (split; [assumption|]).
  exact (memberships_stay_unique sample_zod_uuid sample_zod_email 0%Z ops w H1 H2 H3).
Defined.


Lemma pending_invitations_stay_unique_witness :
  let d := InvitationInput.mk acme_id "d@acme.com" None None None "" 0%Z in
  let l := [Do (OpCreateInvitation d); Do (OpCreateInvitation d);
            Tick 700000000%Z; Cleanup; Do (OpCreateInvitation d)] in
  let w := fresh_session acme_db 5%Z None in
  pending_unique (db w) /\
  pending_unique (db (steps sample_zod_uuid sample_zod_email 0%Z l w)).
Proof.
  intros d l w.
  assert (H : pending_unique (db w)) by (intros tid em; apply Nat.le_0_l).
  split; [exact H|].
  exact (pending_invitations_stay_unique sample_zod_uuid sample_zod_email 0%Z l w H).
Defined.

Lemma tenant_slugs_stay_unique_witness :
  let l := [Do (OpCreateTenant acme_input "ext_1" "a@acme.com");
            Do (OpCreateTenant acme_input "ext_2" "b@acme.com");
            UpdateTenant "00000000-0000-0000-0000-000000000001"
              (TenantInput.mk "acme-corp" "Acme Corp" None None)] in
  let w := fresh_session empty_db 5%Z None in
  tenants_well_formed (db w) /\
  tenants_well_formed (db (steps sample_zod_uuid sample_zod_email 0%Z l w)).
Proof.
  intros l w.
  assert (H : tenants_well_formed (db w)) by (repeat split; constructor).
  split; [exact H|].
  exact (tenant_slugs_stay_unique sample_zod_uuid sample_zod_email 0%Z l w H).
Defined.


Lemma createInvitation_token_and_expiry_witness :
  let d := InvitationInput.mk acme_id "d@acme.com" None None None "chosen" 1%Z in
  let w := fresh_session acme_db 5%Z None in
  let row := TenantInvitation.mk "00000000-0000-0000-0000-000000000001" acme_id
               "d@acme.com" Member None "3f9a" Pending 604800005%Z None 5%Z 5%Z in
  let w' := snd (createInvitation sample_zod_uuid sample_zod_email 0%Z d w) in
  createInvitation sample_zod_uuid sample_zod_email 0%Z d w = (Ok row, w') /\
  TenantInvitation.token row = token_source w (tokens_drawn w) /\
  TenantInvitation.expires_at row = (clock w + seven_days)%Z /\
  fst (getInvitationByToken (TenantInvitation.token row) w') = Ok row.
Proof.
  intros d w row w'.
  assert (H : createInvitation sample_zod_uuid sample_zod_email 0%Z d w = (Ok row, w'))
    by (vm_compute; reflexivity).
  split; [exact H|].
  destruct (proj2 (createInvitation_token_and_expiry sample_zod_uuid sample_zod_email
                     0%Z d w) row w' H)
    as [Ht [He [_ [_ [_ [_ [_ [_ Hback]]]]]]]].
  split; [exact Ht|]. split; [exact He|]. apply Hback. reflexivity.
Defined.


Lemma membership_read_back_witness :
  let w := fresh_session empty_db 5%Z None in
  let u := TenantUser.mk "00000000-0000-0000-0000-000000000001" acme_id "ext_2"
             "b@acme.com" None None Admin Active [] 5%Z 5%Z in
  let w' := snd (createUser sample_zod_uuid sample_zod_email admin_input w) in
  createUser sample_zod_uuid sample_zod_email admin_input w = (Ok u, w') /\
  fst (getUserById (TenantUser.id u) w') = Ok u.
Proof.
  intros w u w'.
  assert (H : createUser sample_zod_uuid sample_zod_email admin_input w = (Ok u, w'))
    by (vm_compute; reflexivity).
  split; [exact H|].
  exact (proj1 (membership_read_back sample_zod_uuid sample_zod_email w)
           admin_input u w' H).
Defined.

Lemma extractTenantSlug_result_witness :
  let request := Middleware.mkRequest [("host", "acme.example.com")] [] "/" in
  let options := Middleware.mkOptions None (Some Middleware.subdomain) None None in
  Middleware.extractTenantSlug request options = Some "acme" /\
  "acme" <> "www" /\ "acme" <> "localhost" /\ contains_char "." "acme" = false.
Proof.
  intros request options.
  assert (H : Middleware.extractTenantSlug request options = Some "acme")
    by reflexivity.
  split; [exact H|].
  destruct (@extractTenantSlug_result request options "acme" H) as [H1 [H2 [H3 _]]].
  split; [exact H1|]. split; [exact H2 | exact H3].
Defined.

Lemma getTenantContext_without_slug_witness :
  let request := Middleware.mkRequest [("x-tenant-slug", "")] [] "/" in
  let options := Middleware.mkOptions None None None None in
  let w := fresh_session acme_db 5%Z (Some "ext_1") in
  Middleware.truthy (Middleware.extractTenantSlug request options) = false /\
  Middleware.getTenantContext request options w
    = (Throw (Error "Tenant context is required but not provided"), w).
Proof.
  intros request options w.
  assert (H : Middleware.truthy (Middleware.extractTenantSlug request options) = false)
    by reflexivity.
  split; [exact H|].
  exact (@getTenantContext_without_slug request options w H).
Defined.

Lemma getTenantContext_result_witness :
  let request := Middleware.mkRequest [("x-tenant-slug", "acme")] [] "/" in
  let options := Middleware.mkOptions None None None None in
  let w := fresh_session acme_db 5%Z (Some "ext_2") in
  let ctx := Middleware.mkContext acme acme_admin
               (Middleware.getRolePermissions "admin") in
  let w' := snd (Middleware.getTenantContext request options w) in
  Middleware.getTenantContext request options w = (Ok (Some ctx), w') /\
  In (Middleware.user ctx) (tenant_users (db w)) /\
  auth_userId w = Some (TenantUser.clerk_user_id (Middleware.user ctx)) /\
  db w' = db w.
Proof.
  intros request options w ctx w'.
  assert (H : Middleware.getTenantContext request options w = (Ok (Some ctx), w'))
    by reflexivity.
  split; [exact H|].
  destruct (@getTenantContext_result request options w w' ctx H)
    as [_ [_ [Hu [_ [Ha [_ [_ Hd]]]]]]].
  split; [exact Hu|]. split; [exact Ha | exact Hd].
Defined.

Lemma gateway_requires_bound_tenant_witness :
  let w := fresh_session acme_db 5%Z None in
  Middleware.truthy (client_tenantId w) = false /\
  (forall data,
     Gateway.tenantUsers_create data w
       = (Throw (Error "Tenant context not set. Call setTenantContext() first."), w)).
Proof.
  intros w.
  assert (H : Middleware.truthy (client_tenantId w) = false) by reflexivity.
  split; [exact H|].
  exact (proj1 (proj2 (@gateway_requires_bound_tenant w H))).
Defined.


Lemma route_ignores_who_calls_witness :
  let body := Some (CreateUserBody.mk "ext_9" "z@acme.com" None None (Some "admin")) in
  let w := fresh_session acme_db 5%Z None in
  let w1 := set_auth_userId (Some "ext_1") w in
  let w2 := set_auth_userId (Some "someone-else") w in
  "ext_1" <> "" /\ "someone-else" <> "" /\
  fst (route_GET "acme" w1) = fst (route_GET "acme" w2) /\
  fst (route_POST sample_zod_uuid sample_zod_email "acme" body w1)
    = fst (route_POST sample_zod_uuid sample_zod_email "acme" body w2) /\
  db (snd (route_POST sample_zod_uuid sample_zod_email "acme" body w1))
    = db (snd (route_POST sample_zod_uuid sample_zod_email "acme" body w2)).
Proof.
  intros body w w1 w2.
  assert (H1 : "ext_1" <> "") by discriminate.
  assert (H2 : "someone-else" <> "") by discriminate.
  repeat (split; [assumption|]).
  exact (@route_ignores_who_calls sample_zod_uuid sample_zod_email "acme" body
           "ext_1" "someone-else" w H1 H2).
Defined.

Lemma membership_updates_read_back_witness :
  let w := fresh_session acme_db 5%Z None in
  let u := TenantUser.touch 5%Z (TenantUser.with_role Viewer acme_admin) in
  let w' := snd (updateUserRole (TenantUser.id acme_admin) "viewer" w) in
  updateUserRole (TenantUser.id acme_admin) "viewer" w = (Ok u, w') /\
  fst (getUserById (TenantUser.id acme_admin) w') = Ok u.
Proof.
  intros w u w'.
  assert (H : updateUserRole (TenantUser.id acme_admin) "viewer" w = (Ok u, w'))
    by (vm_compute; reflexivity).
  split; [exact H|].
  destruct (proj1 (membership_updates_read_back (TenantUser.id acme_admin) w)
              "viewer" u w' H) as [cur [_ [_ [_ [Hg _]]]]].
  exact Hg.
Defined.
